(** * FaradayTest: persistence event layer, generic resource API and the
      hit-count migration, embedded from the Python sources.

    - [Py]        : the fragment of Python the sources rely on (values,
                    exceptions, a state-and-exception monad).
    - [Histogram] : faraday/server/events.py, severities histogram.
    - [Events]    : faraday/server/events.py, change queue and the
                    workspace-consistency hook.
    - [Migration] : migrations/versions/b31fa447f00c_...py.
    - [Api]       : server/api/base.py.

    The modules come first, then the vocabulary of the statements
    ([HistogramSpec], [EventsSpec], [MigrationSpec], [ApiSpec]), then the
    properties. *)

From stdpp Require Import base option list strings pretty gmap.
From Stdlib Require Import ZArith Lia Ascii.

Open Scope Z_scope.

(* ===================================================================== *)
(** * Python fragment *)
(* ===================================================================== *)

Module Py.

(** Dynamically typed values that flow through attribute histories and
    through [update_context.values]. *)
Inductive pyval :=
| PNone
| PBool (b : bool)
| PStr (s : string).

#[global] Instance pyval_eq_dec : EqDecision pyval.
Proof. solve_decision. Defined.

(** [x is True] *)
Definition is_True (v : pyval) : bool :=
  match v with PBool true => true | _ => false end.

(** Truthiness, as used by [if x] and [1 if x else 0]. *)
Definition truthy (v : pyval) : bool :=
  match v with
  | PNone => false
  | PBool b => b
  | PStr s => negb (String.eqb s "")
  end.

(** [x in xs] on a list of values. *)
Definition py_in (v : pyval) (xs : list pyval) : bool :=
  bool_decide (v ∈ xs).

Inductive exn :=
| IndexError
| UnboundLocalError (var : string)
| AssertionError (msg : string)
| MultipleResultsFound
| NoResultFound
| DatabaseError (msg : string)
| TypeError
| HTTPException (code : Z) (msg : string).

#[global] Instance exn_eq_dec : EqDecision exn.
Proof. solve_decision. Defined.

Inductive result (A : Type) :=
| Ok (a : A)
| Raise (e : exn).
Arguments Ok {A} a.
Arguments Raise {A} e.

(** Computations over a mutable world [S] that either return or raise;
    the world survives a raise, as it does in Python. *)
Definition M (S A : Type) : Type := S -> S * result A.

Definition ret {S A} (a : A) : M S A := fun s => (s, Ok a).

Definition bind {S A B} (c : M S A) (k : A -> M S B) : M S B :=
  fun s => match c s with
           | (s', Ok a) => k a s'
           | (s', Raise e) => (s', Raise e)
           end.

Definition raise {S A} (e : exn) : M S A := fun s => (s, Raise e).

Definition modify {S} (f : S -> S) : M S unit := fun s => (f s, Ok tt).

Definition get {S} : M S S := fun s => (s, Ok s).

(** [not xs] on a list. *)
Definition is_nil {A} (xs : list A) : bool :=
  match xs with [] => true | _ => false end.

(** [xs[0]] *)
Definition item0 {S A} (xs : list A) : M S A :=
  match xs with
  | x :: _ => ret x
  | [] => raise IndexError
  end.

(** [try: c  except e: handler] *)
Definition try_except {S A} (c : M S A) (e : exn) (handler : M S A) : M S A :=
  fun s => match c s with
           | (s', Raise e') =>
               if bool_decide (e' = e) then handler s' else (s', Raise e')
           | r => r
           end.

(** Reading a local variable that may not have been assigned yet. *)
Definition local {S A} (name : string) (v : option A) : M S A :=
  match v with
  | Some x => ret x
  | None => raise (UnboundLocalError name)
  end.

(** [for x in xs: body x] *)
Fixpoint for_each {S A} (xs : list A) (body : A -> M S unit) : M S unit :=
  match xs with
  | [] => ret tt
  | x :: rest => bind (body x) (fun _ => for_each rest body)
  end.

End Py.

Import Py.

Notation "x <~ c ;; k" := (Py.bind c (fun x => k))
  (at level 100, c at next level, right associativity).
Notation "c ;;; k" := (Py.bind c (fun _ => k))
  (at level 100, right associativity).

(* ===================================================================== *)
(** * Severities histogram (faraday/server/events.py) *)
(* ===================================================================== *)

Module Histogram.

(** Modelled from the spec: the constants of [faraday.server.models]
    ([Vulnerability.SEVERITY_*], [Vulnerability.STATUS_*] and
    [SeveritiesHistogram.SEVERITIES_ALLOWED]) are declared outside the
    files at hand; their values are the ones the specification lists. *)
Definition SEVERITY_MEDIUM : pyval := PStr "medium".
Definition SEVERITY_HIGH : pyval := PStr "high".
Definition SEVERITY_CRITICAL : pyval := PStr "critical".
Definition STATUS_OPEN : pyval := PStr "open".
Definition STATUS_RE_OPENED : pyval := PStr "re-opened".
Definition STATUS_CLOSED : pyval := PStr "closed".
Definition STATUS_RISK_ACCEPTED : pyval := PStr "risk-accepted".
Definition SEVERITIES_ALLOWED : list pyval :=
  [SEVERITY_MEDIUM; SEVERITY_HIGH; SEVERITY_CRITICAL].

(** A calendar day, as a day number. *)
Definition date := Z.

(** One row of [severities_histogram]. *)
Record SeveritiesHistogram := mkRow {
  id : Z;
  workspace_id : Z;
  day : date;
  medium : Z;
  high : Z;
  critical : Z;
  confirmed : Z
}.

(** The world the hooks act on: the histogram table, the sequence that
    feeds its surrogate key, and what was passed to [logger.error]. *)
Record Store := mkStore {
  rows : list SeveritiesHistogram;
  next_id : Z;
  errors : list string
}.

Definition logger_error (msg : string) : M Store unit :=
  modify (fun s => mkStore (rows s) (next_id s) (errors s ++ [msg])).

(** [SeveritiesHistogram.query.with_entities('id').filter(date == today,
    workspace_id == w).first()] *)
Definition query_first (today : date) (w : Z) (tbl : list SeveritiesHistogram)
  : option Z :=
  id <$> head (filter (fun r => day r = today ∧ workspace_id r = w) tbl).

(** [INSERT INTO severities_histogram (workspace_id, medium, high,
    critical, date, confirmed) VALUES (...)] *)
Definition sql_insert (today : date) (w m h c cf : Z) : M Store unit :=
  modify (fun s =>
    mkStore (rows s ++ [mkRow (next_id s) w today m h c cf])
            (next_id s + 1) (errors s)).

Definition add_deltas (m h c cf : Z) (r : SeveritiesHistogram)
  : SeveritiesHistogram :=
  mkRow (id r) (workspace_id r) (day r)
        (medium r + m) (high r + h) (critical r + c) (confirmed r + cf).

(** [UPDATE severities_histogram SET medium = medium + m, ...
    WHERE id = i] *)
Definition sql_update (i : Z) (m h c cf : Z) : M Store unit :=
  modify (fun s =>
    mkStore (map (fun r => if bool_decide (id r = i)
                           then add_deltas m h c cf r else r) (rows s))
            (next_id s) (errors s)).

Definition _create_or_update_histogram (today : date)
    (workspace_id : option Z) (medium high critical confirmed : Z)
  : M Store unit :=
  match workspace_id with
  | None =>
      logger_error "Workspace with None value. Histogram could not be updated"
  | Some w =>
      s <~ get ;;
      match query_first today w (rows s) with
      | None => sql_insert today w medium high critical confirmed
      | Some ws_id => sql_update ws_id medium high critical confirmed
      end
  end.

Definition _dicrease_severities_histogram (instance_severity : pyval)
    (medium high critical : Z) : Z * Z * Z :=
  let medium := if bool_decide (instance_severity = SEVERITY_MEDIUM)
                then -1 else medium in
  let high := if bool_decide (instance_severity = SEVERITY_HIGH)
              then -1 else high in
  let critical := if bool_decide (instance_severity = SEVERITY_CRITICAL)
                  then -1 else critical in
  (medium, high, critical).

Definition _increase_severities_histogram (instance_severity : pyval)
    (medium high critical : Z) : Z * Z * Z :=
  let medium := if bool_decide (instance_severity = SEVERITY_MEDIUM)
                then 1 else medium in
  let high := if bool_decide (instance_severity = SEVERITY_HIGH)
              then 1 else high in
  let critical := if bool_decide (instance_severity = SEVERITY_CRITICAL)
                  then 1 else critical in
  (medium, high, critical).

(** The attributes of a vulnerability row the hooks read. *)
Record Vuln := mkVuln {
  v_id : Z;
  v_workspace_id : option Z;
  v_severity : pyval;
  v_status : pyval;
  v_confirmed : pyval
}.

Definition alter_histogram_on_insert (today : date) (instance : Vuln)
  : M Store unit :=
  if py_in (v_severity instance) SEVERITIES_ALLOWED then
    let '(medium, high, critical) :=
      _increase_severities_histogram (v_severity instance) 0 0 0 in
    let confirmed := if truthy (v_confirmed instance) then 1 else 0 in
    _create_or_update_histogram today (v_workspace_id instance)
                                medium high critical confirmed
  else ret tt.

(** An attribute history: what [get_history] returns, and what
    [get_history_from_context_values] builds. *)
Record History := mkHistory {
  added : list pyval;
  unchanged : list pyval;
  deleted : list pyval
}.

Definition OPEN_STATES : list pyval := [STATUS_OPEN; STATUS_RE_OPENED].
Definition CLOSED_STATES : list pyval := [STATUS_CLOSED; STATUS_RISK_ACCEPTED].

(** [cond1 and cond2] with Python's short circuit. *)
Definition and_then {S} (c1 c2 : M S bool) : M S bool :=
  b <~ c1 ;; if b then c2 else ret false.

(** The part of [alter_histogram_on_update_general] below the
    computation of the three confirmed counters. *)
Definition update_general_tail (today : date) (workspace_id : option Z)
    (status_history severity_history : History)
    (confirmed_counter confirmed_counter_on_close
     confirmed_counter_on_reopen : Z) : M Store unit :=
  let confirmed_only : M Store unit :=
    apply <~ and_then
      (ret (negb (confirmed_counter =? 0)))
      (st <~ item0 (unchanged status_history) ;; ret (py_in st OPEN_STATES)) ;;
    if apply
    then _create_or_update_histogram today workspace_id 0 0 0 confirmed_counter
    else ret tt in
  if 0 <? Z.of_nat (length (unchanged status_history)) then
    if 0 <? Z.of_nat (length (unchanged severity_history)) then
      confirmed_only
    else if is_nil (deleted severity_history)
            || is_nil (added severity_history) then
      confirmed_only ;;;
      logger_error
        "Severity history deleted or added is None. Could not update severity histogram."
    else
      d <~ item0 (deleted severity_history) ;;
      let '(medium, high, critical) :=
        if py_in d SEVERITIES_ALLOWED
        then _dicrease_severities_histogram d 0 0 0 else (0, 0, 0) in
      a <~ item0 (added severity_history) ;;
      let '(medium, high, critical) :=
        if py_in a SEVERITIES_ALLOWED
        then _increase_severities_histogram a medium high critical
        else (medium, high, critical) in
      _create_or_update_histogram today workspace_id
                                  medium high critical confirmed_counter
  else
    closing <~ and_then
      (a <~ item0 (added status_history) ;; ret (py_in a CLOSED_STATES))
      (d <~ item0 (deleted status_history) ;; ret (py_in d OPEN_STATES)) ;;
    if closing then
      let severity :=
        if 0 <? Z.of_nat (length (unchanged severity_history))
        then head (unchanged severity_history) else None in
      let severity :=
        if 0 <? Z.of_nat (length (deleted severity_history))
        then head (deleted severity_history) else severity in
      severity <~ local "severity" severity ;;
      if py_in severity SEVERITIES_ALLOWED then
        let '(medium, high, critical) :=
          _dicrease_severities_histogram severity 0 0 0 in
        _create_or_update_histogram today workspace_id medium high critical
                                    confirmed_counter_on_close
      else ret tt
    else
      reopening <~ and_then
        (a <~ item0 (added status_history) ;; ret (py_in a OPEN_STATES))
        (d <~ item0 (deleted status_history) ;; ret (py_in d CLOSED_STATES)) ;;
      if reopening then
        let severity :=
          if 0 <? Z.of_nat (length (unchanged severity_history))
          then head (unchanged severity_history) else None in
        let severity :=
          if 0 <? Z.of_nat (length (added severity_history))
          then head (added severity_history) else severity in
        severity <~ local "severity" severity ;;
        if py_in severity SEVERITIES_ALLOWED then
          let '(medium, high, critical) :=
            _increase_severities_histogram severity 0 0 0 in
          _create_or_update_histogram today workspace_id medium high critical
                                      confirmed_counter_on_reopen
        else ret tt
      else if negb (confirmed_counter =? 0) then
        _create_or_update_histogram today workspace_id 0 0 0 confirmed_counter
      else ret tt.

(** [None] stands for every argument on which [not history] holds: an
    argument left at its default, or the blank history. *)
Definition alter_histogram_on_update_general (today : date)
    (workspace_id : option Z)
    (status_history confirmed_history severity_history : option History)
  : M Store unit :=
  match status_history, confirmed_history, severity_history with
  | Some status_history, Some confirmed_history, Some severity_history =>
      let tail := update_general_tail today workspace_id
                                      status_history severity_history in
      if 0 <? Z.of_nat (length (unchanged confirmed_history)) then
        c <~ item0 (unchanged confirmed_history) ;;
        tail 0 (if is_True c then -1 else 0) (if is_True c then 1 else 0)
      else if is_nil (deleted confirmed_history)
              || is_nil (added confirmed_history) then
        logger_error
          "Confirmed history deleted or added is None. Could not update confirmed value."
      else
        d <~ item0 (deleted confirmed_history) ;;
        if is_True d then tail (-1) (-1) 0 else tail 1 0 1
  | _, _, _ => logger_error "Not all history fields provided"
  end.

Definition alter_histogram_on_delete (today : date) (instance : Vuln)
  : M Store unit :=
  if py_in (v_status instance) OPEN_STATES then
    let confirmed := if is_True (v_confirmed instance) then -1 else 0 in
    if py_in (v_severity instance) SEVERITIES_ALLOWED then
      let '(medium, high, critical) :=
        _dicrease_severities_histogram (v_severity instance) 0 0 0 in
      _create_or_update_histogram today (v_workspace_id instance)
                                  medium high critical confirmed
    else ret tt
  else ret tt.

(** ** Bulk, query-level hooks *)

Inductive EntityType :=
| TVulnerability
| TVulnerabilityGeneric
| TVulnerabilityWeb
| TOther (name : string).

Definition is_vuln_type (t : EntityType) : bool :=
  match t with
  | TVulnerability | TVulnerabilityGeneric | TVulnerabilityWeb => true
  | TOther _ => false
  end.

(** What the hooks read from a [Query]: the entity of each column
    description, the bound parameters of the compiled statement in
    [items()] order, and the criteria the statement filters by, which is
    what [query.all()] evaluates. *)
Record Query := mkQuery {
  column_descriptions : list EntityType;
  params : list (string * Z);
  criteria : Vuln -> bool
}.

Definition query_all (q : Query) (tbl : list Vuln) : list Vuln :=
  List.filter (criteria q) tbl.

(** [session.query(VulnerabilityGeneric).filter(
      VulnerabilityGeneric.id.in_(ids)).all()] *)
Definition query_by_ids (ids : list Z) (tbl : list Vuln) : list Vuln :=
  List.filter (fun v => bool_decide (v_id v ∈ ids)) tbl.

(** A row as [alter_histogram_on_before_compile_delete] treats it: the
    same test as [alter_histogram_on_delete], written out again in the
    source with the confirmed delta computed at the call. *)
Definition delete_row (today : date) (instance : Vuln) : M Store unit :=
  if py_in (v_status instance) OPEN_STATES then
    if py_in (v_severity instance) SEVERITIES_ALLOWED then
      let '(medium, high, critical) :=
        _dicrease_severities_histogram (v_severity instance) 0 0 0 in
      _create_or_update_histogram today (v_workspace_id instance)
        medium high critical
        (if is_True (v_confirmed instance) then -1 else 0)
    else ret tt
  else ret tt.

Definition alter_histogram_on_before_compile_delete (today : date)
    (tbl : list Vuln) (query : Query) : M Store unit :=
  for_each (column_descriptions query) (fun desc =>
    if is_vuln_type desc then
      for_each (query_all query tbl) (delete_row today)
    else ret tt).

Definition get_history_from_context_values
    (context_values : gmap string pyval) (field : string)
    (old_value : pyval) : History :=
  match context_values !! field with
  | Some new_value =>
      if bool_decide (new_value ≠ old_value)
      then mkHistory [new_value] [] [old_value]
      else mkHistory [] [old_value] []
  | None => mkHistory [] [old_value] []
  end.

(** [[x[1] for x in filter(lambda x: x[0].startswith("id_"), items)]] *)
Definition id_params (items : list (string * Z)) : list Z :=
  snd <$> List.filter (fun x => String.prefix "id_" (fst x)) items.

Definition update_row (today : date) (values : gmap string pyval)
    (instance : Vuln) : M Store unit :=
  let status_history :=
    get_history_from_context_values values "status" (v_status instance) in
  let severity_history :=
    get_history_from_context_values values "severity" (v_severity instance) in
  let confirmed_history :=
    get_history_from_context_values values "confirmed" (v_confirmed instance) in
  alter_histogram_on_update_general today (v_workspace_id instance)
    (Some status_history) (Some confirmed_history) (Some severity_history).

Definition alter_histogram_on_before_compile_update (today : date)
    (tbl : list Vuln) (query : Query) (values : gmap string pyval)
  : M Store unit :=
  for_each (column_descriptions query) (fun desc =>
    if is_vuln_type desc then
      let ids := id_params (params query) in
      let instances :=
        if negb (is_nil ids) then query_by_ids ids tbl
        else query_all query tbl in
      for_each instances (update_row today values)
    else ret tt).

End Histogram.

(* ===================================================================== *)
(** * Change queue and workspace consistency (faraday/server/events.py) *)
(* ===================================================================== *)

Module Events.

(** A naive [datetime], as a number of microseconds on the time line. *)
Definition datetime := Z.

(** [datetime.timedelta], normalised as Python keeps it:
    [0 <= seconds < 86400] and [0 <= microseconds < 10^6]. *)
Record timedelta := mkDelta {
  days : Z;
  seconds : Z;
  microseconds : Z
}.

Definition US_PER_SECOND : Z := 1000000.
Definition US_PER_DAY : Z := 86400 * US_PER_SECOND.

(** [a - b] on two datetimes. *)
Definition datetime_sub (a b : datetime) : timedelta :=
  let us := a - b in
  mkDelta (us / US_PER_DAY)
          ((us mod US_PER_DAY) / US_PER_SECOND)
          (us mod US_PER_SECOND).

(** [delta.total_seconds()], rounded down to whole seconds. *)
Definition elapsed_seconds (a b : datetime) : Z := (a - b) / US_PER_SECOND.

(** A Host or Service as the queue hooks read it; an attribute the
    class lacks reads as [PNone] through [getattr(_, _, None)]. *)
Record Asset := mkAsset {
  a_id : Z;
  a_class : string;
  a_ip : pyval;
  a_name : pyval;
  a_workspace_name : string;
  create_date : datetime;
  update_date : datetime
}.

Record Message := mkMessage {
  msg_id : Z;
  msg_action : string;
  msg_type : string;
  msg_name : pyval;
  msg_workspace : string
}.

(** [x or y] *)
Definition py_or (x y : pyval) : pyval := if truthy x then x else y.

(** The state is [changes_queue]; [put] appends. *)
Definition update_object_event (instance : Asset) : M (list Message) unit :=
  let delta := datetime_sub (update_date instance) (create_date instance) in
  if seconds delta <? 30 then ret tt
  else
    let name := py_or (a_ip instance) (a_name instance) in
    let msg := mkMessage (a_id instance) "UPDATE" (a_class instance) name
                         (a_workspace_name instance) in
    modify (fun q => q ++ [msg]).

(** Workspaces are compared as objects, hence by identity. *)
Record Parent := mkParent {
  p_workspace : option Z;
  p_workspace_id : option Z
}.

Record Entity := mkEntity {
  e_workspace : option Z;
  e_workspace_id : option Z;
  e_parent : option Parent
}.

Definition WORKSPACE_CONFLICT : string :=
  "Conflicting workspace assignation for objects. This should never happen!!!".
Definition WORKSPACE_ID_CONFLICT : string :=
  "Conflicting workspace_id assignation for objects. This should never happen!!!".

Definition py_assert {S} (cond : bool) (msg : string) : M S unit :=
  if cond then ret tt else raise (AssertionError msg).

Definition after_insert_check_child_has_same_workspace {S}
    (inserted_instance : Entity) : M S unit :=
  match e_parent inserted_instance with
  | Some parent =>
      py_assert (bool_decide (e_workspace inserted_instance
                              = p_workspace parent)) WORKSPACE_CONFLICT ;;;
      py_assert (bool_decide (e_workspace_id inserted_instance
                              = p_workspace_id parent)) WORKSPACE_ID_CONFLICT
  | None => ret tt
  end.

(** ** Listener registration *)

Inductive Handler :=
| H_check_child_has_same_workspace
| H_new_object_event
| H_delete_object_event
| H_update_object_event
| H_alter_histogram_on_insert
| H_alter_histogram_on_update
| H_alter_histogram_on_delete.

#[global] Instance Handler_eq_dec : EqDecision Handler.
Proof. solve_decision. Defined.

(** One entry of [inspect.getmembers(faraday.server.models)]. *)
Record Member := mkMember {
  member_name : string;
  member_isclass : bool;
  member_workspace_id : bool
}.

(** [event.listen(target, identifier, fn)] *)
Record Listener := mkListener {
  l_target : string;
  l_event : string;
  l_fn : Handler
}.

Definition register_workspace_checks (members : list Member) : list Listener :=
  members ≫= (fun m =>
    if member_isclass m && member_workspace_id m then
      [ mkListener (member_name m) "after_insert"
                   H_check_child_has_same_workspace;
        mkListener (member_name m) "after_update"
                   H_check_child_has_same_workspace ]
    else []).

(** The module body from the registration loop down, in source order. *)
Definition listeners (members : list Member) : list Listener :=
  register_workspace_checks members ++
  [ mkListener "Host" "after_insert" H_new_object_event;
    mkListener "Service" "after_insert" H_new_object_event;
    mkListener "Host" "after_delete" H_delete_object_event;
    mkListener "Service" "after_delete" H_delete_object_event;
    mkListener "Host" "after_update" H_update_object_event;
    mkListener "Service" "after_update" H_update_object_event;
    mkListener "VulnerabilityGeneric" "before_insert" H_alter_histogram_on_insert;
    mkListener "VulnerabilityGeneric" "before_update" H_alter_histogram_on_update;
    mkListener "VulnerabilityGeneric" "after_delete" H_alter_histogram_on_delete ].

Definition handlers_for (reg : list Listener) (target event : string)
  : list Handler :=
  l_fn <$> List.filter
    (fun l => bool_decide (l_target l = target ∧ l_event l = event)) reg.

Section Dispatch.
Context {S : Type}.
(** The hooks other than the consistency check, on whatever world
    they act. *)
Variable run_other : Handler -> Entity -> M S unit.

Definition run (h : Handler) (instance : Entity) : M S unit :=
  match h with
  | H_check_child_has_same_workspace =>
      after_insert_check_child_has_same_workspace instance
  | _ => run_other h instance
  end.

(** Listeners run in registration order; the first one to raise ends
    the dispatch. *)
Definition fire (reg : list Listener) (target event : string)
    (instance : Entity) : M S unit :=
  for_each (handlers_for reg target event) (fun h => run h instance).
End Dispatch.

(** ** Creation and deletion messages *)

(** A Host or a Service as [new_object_event] and [delete_object_event]
    read it. [i_ip] is [None] for a class without an [ip] attribute,
    where reading it raises [AttributeError]; such a class, Service,
    has [name], which is read in that case only. *)
Record Instance := mkInstance {
  i_id : Z;
  i_class : string;
  i_ip : option pyval;
  i_name : pyval;
  i_workspace_name : string
}.

(** [try: name = instance.ip  except AttributeError: name = instance.name] *)
Definition ip_or_name (instance : Instance) : pyval :=
  match i_ip instance with
  | Some ip => ip
  | None => i_name instance
  end.

Definition new_object_event (instance : Instance) : M (list Message) unit :=
  let name := ip_or_name instance in
  let msg := mkMessage (i_id instance) "CREATE" (i_class instance) name
                       (i_workspace_name instance) in
  modify (fun q => q ++ [msg]).

(** A row of [TagObject], [Comment] or [File]: its own key and the
    object it is attached to. *)
Record Annotation := mkAnnotation {
  an_id : Z;
  an_object_id : Z;
  an_object_type : string
}.

(** What [delete_object_event] acts on: the three annotation tables and
    [changes_queue]. *)
Record World := mkWorld {
  tag_objects : list Annotation;
  comments : list Annotation;
  files : list Annotation;
  changes_queue : list Message
}.

Definition lower_ascii (c : ascii) : ascii :=
  let n := nat_of_ascii c in
  if (65 <=? n)%nat && (n <=? 90)%nat then ascii_of_nat (n + 32) else c.

(** [s.lower()] on the ASCII letters a class name is made of. *)
Fixpoint lower (s : string) : string :=
  match s with
  | EmptyString => EmptyString
  | String c rest => String (lower_ascii c) (lower rest)
  end.

(** [query.filter_by(object_id=i, object_type=t).delete()] *)
Definition delete_by (object_id : Z) (object_type : string)
    (tbl : list Annotation) : list Annotation :=
  List.filter
    (fun a => negb (bool_decide (an_object_id a = object_id
                                 ∧ an_object_type a = object_type))) tbl.

Definition delete_object_event (instance : Instance) : M World unit :=
  let name := ip_or_name instance in
  let msg := mkMessage (i_id instance) "DELETE" (i_class instance) name
                       (i_workspace_name instance) in
  modify (fun w => mkWorld
            (delete_by (i_id instance) (lower (msg_type msg)) (tag_objects w))
            (comments w) (files w) (changes_queue w)) ;;;
  modify (fun w => mkWorld (tag_objects w)
            (delete_by (i_id instance) (lower (msg_type msg)) (comments w))
            (files w) (changes_queue w)) ;;;
  modify (fun w => mkWorld (tag_objects w) (comments w)
            (delete_by (i_id instance) (lower (msg_type msg)) (files w))
            (changes_queue w)) ;;;
  modify (fun w => mkWorld (tag_objects w) (comments w) (files w)
                           (changes_queue w ++ [msg])).

End Events.

(* ===================================================================== *)
(** * Migration b31fa447f00c: vulnerability_hit_count *)
(* ===================================================================== *)

Module Migration.

Inductive ColumnType := Integer | Date.

#[global] Instance ColumnType_eq_dec : EqDecision ColumnType.
Proof. solve_decision. Defined.

(** [sa.Column(name, type, nullable=...)] *)
Record Column := mkColumn {
  c_name : string;
  c_type : ColumnType;
  c_nullable : bool
}.

(** [sa.ForeignKeyConstraint(columns, refcolumns)], the referred
    columns being written [table.column]. *)
Record ForeignKey := mkFK {
  fk_columns : list string;
  fk_reftable : string;
  fk_refcolumns : list string
}.

Record Table := mkTable {
  t_columns : list Column;
  t_foreign_keys : list ForeignKey;
  t_primary_key : list string
}.

Record Index := mkIndex {
  i_table : string;
  i_columns : list string;
  i_unique : bool
}.

Record Schema := mkSchema {
  tables : gmap string Table;
  indexes : gmap string Index
}.

Definition op_create_table (name : string) (t : Table) : M Schema unit :=
  fun s =>
    if bool_decide (is_Some (tables s !! name)) then
      (s, Raise (DatabaseError "relation already exists"))
    else if bool_decide
              (Forall (fun fk => is_Some (tables s !! fk_reftable fk))
                      (t_foreign_keys t)) then
      (mkSchema (<[name := t]> (tables s)) (indexes s), Ok tt)
    else (s, Raise (DatabaseError "referenced relation does not exist")).

Definition op_create_index (name table : string) (cols : list string)
    (unique : bool) : M Schema unit :=
  fun s =>
    if bool_decide (is_Some (indexes s !! name)) then
      (s, Raise (DatabaseError "relation already exists"))
    else if bool_decide (is_Some (tables s !! table)) then
      (mkSchema (tables s) (<[name := mkIndex table cols unique]> (indexes s)),
       Ok tt)
    else (s, Raise (DatabaseError "relation does not exist")).

Definition op_drop_index (name : string) : M Schema unit :=
  fun s =>
    if bool_decide (is_Some (indexes s !! name)) then
      (mkSchema (tables s) (delete name (indexes s)), Ok tt)
    else (s, Raise (DatabaseError "index does not exist")).

(** Dropping a table takes the indexes on it along. *)
Definition op_drop_table (name : string) : M Schema unit :=
  fun s =>
    if bool_decide (is_Some (tables s !! name)) then
      (mkSchema (delete name (tables s))
                (filter (fun kv => i_table kv.2 ≠ name) (indexes s)), Ok tt)
    else (s, Raise (DatabaseError "table does not exist")).

Definition vulnerability_hit_count : Table :=
  mkTable
    [ mkColumn "id" Integer false;
      mkColumn "workspace_id" Integer false;
      mkColumn "date" Date false;
      mkColumn "low_open_unconfirmed" Integer false;
      mkColumn "low_open_confirmed" Integer false;
      mkColumn "low_risk_accepted_unconfirmed" Integer false;
      mkColumn "low_risk_accepted_confirmed" Integer false;
      mkColumn "low_re_opened_unconfirmed" Integer false;
      mkColumn "low_re_opened_confirmed" Integer false;
      mkColumn "low_closed_unconfirmed" Integer false;
      mkColumn "low_closed_confirmed" Integer false;
      mkColumn "medium_open_unconfirmed" Integer false;
      mkColumn "medium_open_confirmed" Integer false;
      mkColumn "medium_risk_accepted_unconfirmed" Integer false;
      mkColumn "medium_risk_accepted_confirmed" Integer false;
      mkColumn "medium_re_opened_unconfirmed" Integer false;
      mkColumn "medium_re_opened_confirmed" Integer false;
      mkColumn "medium_closed_unconfirmed" Integer false;
      mkColumn "medium_closed_confirmed" Integer false;
      mkColumn "high_open_unconfirmed" Integer false;
      mkColumn "high_open_confirmed" Integer false;
      mkColumn "high_risk_accepted_unconfirmed" Integer false;
      mkColumn "high_risk_accepted_confirmed" Integer false;
      mkColumn "high_re_opened_unconfirmed" Integer false;
      mkColumn "high_re_opened_confirmed" Integer false;
      mkColumn "high_closed_unconfirmed" Integer false;
      mkColumn "high_closed_confirmed" Integer false;
      mkColumn "critical_open_unconfirmed" Integer false;
      mkColumn "critical_open_confirmed" Integer false;
      mkColumn "critical_risk_accepted_unconfirmed" Integer false;
      mkColumn "critical_risk_accepted_confirmed" Integer false;
      mkColumn "critical_re_opened_unconfirmed" Integer false;
      mkColumn "critical_re_opened_confirmed" Integer false;
      mkColumn "critical_closed_unconfirmed" Integer false;
      mkColumn "critical_closed_confirmed" Integer false ]
    [ mkFK ["workspace_id"] "workspace" ["id"] ]
    ["id"].

Definition upgrade : M Schema unit :=
  op_create_table "vulnerability_hit_count" vulnerability_hit_count ;;;
  op_create_index "ix_vulnerability_hit_count_workspace_id"
                  "vulnerability_hit_count" ["workspace_id"] false.

Definition downgrade : M Schema unit :=
  op_drop_index "ix_vulnerability_hit_count_workspace_id" ;;;
  op_drop_table "vulnerability_hit_count".

(** The column names the specification enumerates. *)
Definition SEVERITIES : list string := ["low"; "medium"; "high"; "critical"].
Definition STATUSES : list string :=
  ["open"; "risk_accepted"; "re_opened"; "closed"].
Definition CONFIRMATIONS : list string := ["unconfirmed"; "confirmed"].

Definition counter_names : list string :=
  sev ← SEVERITIES; st ← STATUSES; cf ← CONFIRMATIONS;
  [sev +:+ "_" +:+ st +:+ "_" +:+ cf].

End Migration.

(* ===================================================================== *)
(** * Generic resource API (server/api/base.py) *)
(* ===================================================================== *)

Module Api.

(** Column values. *)
Inductive value :=
| VNull
| VInt (z : Z)
| VStr (s : string).

#[global] Instance value_eq_dec : EqDecision value.
Proof. solve_decision. Defined.

(** ['%s' % v] *)
Definition str (v : value) : string :=
  match v with
  | VNull => "None"
  | VInt z => pretty z
  | VStr s => s
  end.

Definition is_digit (c : ascii) : bool :=
  let n := Z.of_nat (nat_of_ascii c) in (48 <=? n) && (n <=? 57).

Fixpoint digits (s : string) (acc : Z) : option Z :=
  match s with
  | EmptyString => Some acc
  | String c rest =>
      if is_digit c
      then digits rest (10 * acc + (Z.of_nat (nat_of_ascii c) - 48))
      else None
  end.

(** [int(s)] on the decimal strings a URL carries: an optional minus
    sign and at least one digit; [None] stands for [ValueError]. *)
Definition int (s : string) : option value :=
  match s with
  | EmptyString => None
  | String "-"%char EmptyString => None
  | String "-"%char rest => (fun z => VInt (- z)) <$> digits rest 0
  | _ => VInt <$> digits s 0
  end.

(** The comparison the database makes between a column and a bound URL
    parameter, which reaches it as text. *)
Definition db_eq (v : value) (object_id : string) : bool :=
  match v with
  | VNull => false
  | VInt z => bool_decide (int object_id = Some (VInt z))
  | VStr s => bool_decide (s = object_id)
  end.

Record Workspace := mkWorkspace {
  ws_id : Z;
  ws_name : string
}.

#[global] Instance Workspace_eq_dec : EqDecision Workspace.
Proof. solve_decision. Defined.

(** A stored row of the model's table. *)
Record Row := mkRow {
  r_workspace_id : Z;
  r_attrs : gmap string value
}.

(** The database as the queries of one request see it. *)
Record Database := mkDatabase {
  workspaces : list Workspace;
  table : list Row
}.

(** An instance in memory; a column never assigned reads as [None]. *)
Record Obj := mkObj {
  o_persistent : bool;
  o_workspace : option Workspace;
  o_attrs : gmap string value
}.

Definition column (r : Row) (f : string) : value :=
  default VNull (r_attrs r !! f).

Definition getattr (o : Obj) (f : string) : value :=
  default VNull (o_attrs o !! f).

(** ** The session *)

Inductive SessionOp :=
| OpAdd (o : Obj)
| OpDelete (o : Obj)
| OpCommit
| OpRollback.

Record Session := mkSession {
  session_new : list Obj;
  trace : list SessionOp
}.

Definition session_add (o : Obj) : M Session unit :=
  modify (fun s =>
    mkSession (if o_persistent o then session_new s else session_new s ++ [o])
              (trace s ++ [OpAdd o])).

Definition session_commit : M Session unit :=
  modify (fun s => mkSession [] (trace s ++ [OpCommit])).

Definition rolled_back (s : Session) : Session :=
  mkSession [] (trace s ++ [OpRollback]).

Definition session_rollback : M Session unit := modify rolled_back.

(** ** Query results *)

Definition one {S A} (xs : list A) : M S A :=
  match xs with
  | [] => raise NoResultFound
  | [x] => ret x
  | _ => raise MultipleResultsFound
  end.

Definition one_or_none {S A} (xs : list A) : M S (option A) :=
  match xs with
  | [] => ret None
  | [x] => ret (Some x)
  | _ => raise MultipleResultsFound
  end.

Definition abort {S A} (code : Z) (msg : string) : M S A :=
  raise (HTTPException code msg).

Definition DQUOTE : string := String (ascii_of_nat 34) EmptyString.

(** ** Views *)

Inductive ViewClass := GenericView | GenericWorkspacedView.

Record View := mkView {
  view_class : ViewClass;
  lookup_field : string;
  lookup_field_type : string -> option value;
  unique_fields : list string;
  primary_key : string
}.

Definition _validate_object_id {S} (self : View) (object_id : string)
  : M S unit :=
  match lookup_field_type self object_id with
  | Some _ => ret tt
  | None => abort 404 "Invalid format of lookup field"
  end.

Definition _get_workspace {S} (db : Database) (workspace_name : string)
  : M S Workspace :=
  try_except
    (one (List.filter (fun w => bool_decide (ws_name w = workspace_name))
                      (workspaces db)))
    NoResultFound
    (abort 404 ("No such workspace: " +:+ workspace_name)).

(** [GenericView._get_base_query(self)] takes no further argument and
    [GenericWorkspacedView._get_base_query(self, workspace_name)] takes
    exactly one. The join is on the workspace key, so a row is kept
    when its [workspace_id] is the id of the workspace found. *)
Definition _get_base_query {S} (self : View) (db : Database)
    (workspace_name : option string) : M S (list Row) :=
  match view_class self, workspace_name with
  | GenericView, None => ret (table db)
  | GenericWorkspacedView, Some name =>
      ws <~ _get_workspace db name ;;
      ret (List.filter (fun r => bool_decide (r_workspace_id r = ws_id ws))
                       (table db))
  | _, _ => raise TypeError
  end.

(** The rows whose lookup field equals the id. *)
Definition lookup_matches (self : View) (object_id : string)
    (q : list Row) : list Row :=
  List.filter (fun r => db_eq (column r (lookup_field self)) object_id) q.

Definition _get_object {S} (self : View) (db : Database)
    (object_id : string) (workspace_name : option string) : M S Row :=
  _validate_object_id self object_id ;;;
  try_except
    (q <~ _get_base_query self db workspace_name ;;
     one (lookup_matches self object_id q))
    NoResultFound
    (abort 404 ("Object with id " +:+ DQUOTE +:+ object_id +:+ DQUOTE
                +:+ " not found")).

(** [query.filter(field == value)], then
    [query.filter(primary_key_field != object_id)] when an id is given. *)
Definition uniqueness_query (self : View) (field_name : string)
    (v : value) (object_id : option string) (q : list Row) : list Row :=
  let q := List.filter (fun r => bool_decide (column r field_name = v)) q in
  match object_id with
  | Some oid =>
      List.filter (fun r => negb (db_eq (column r (primary_key self)) oid)) q
  | None => q
  end.

Definition conflict_message (field_name : string) (v : value) : string :=
  "Existing value for " +:+ field_name +:+ " field: " +:+ str v.

(** The loop of [GenericWorkspacedView._validate_uniqueness]. *)
Fixpoint validate_fields (self : View) (db : Database) (obj : Obj)
    (ws : Workspace) (object_id : option string) (fields : list string)
  : M Session unit :=
  match fields with
  | [] => ret tt
  | field_name :: rest =>
      let v := getattr obj field_name in
      q <~ _get_base_query self db (Some (ws_name ws)) ;;
      found <~ one_or_none (uniqueness_query self field_name v object_id q) ;;
      match found with
      | Some _ =>
          session_rollback ;;;
          abort 422 (conflict_message field_name v)
      | None => validate_fields self db obj ws object_id rest
      end
  end.

(** Returns what the Python method returns: [True] from [GenericView],
    [None] from [GenericWorkspacedView]. *)
Definition _validate_uniqueness (self : View) (db : Database) (obj : Obj)
    (object_id : option string) : M Session pyval :=
  match view_class self with
  | GenericView => ret (PBool true)
  | GenericWorkspacedView =>
      match o_workspace obj with
      | None =>
          raise (AssertionError
            "Object must have a workspace attribute set to call _validate_uniqueness")
      | Some ws =>
          validate_fields self db obj ws object_id (unique_fields self) ;;;
          ret PNone
      end
  end.

(** [assert not db.session.new] *)
Definition assert_no_new : M Session unit :=
  s <~ get ;;
  if is_nil (session_new s) then ret tt else raise (AssertionError "").


(** [UpdateMixin._perform_update], entered through
    [UpdateWorkspacedMixin._perform_update] on a workspaced view. *)
Definition _perform_update (self : View) (db : Database)
    (object_id : string) (obj : Obj) (workspace_name : option string)
  : M Session unit :=
  let base (obj : Obj) : M Session unit :=
    _validate_uniqueness self db obj (Some object_id) ;;;
    session_add obj ;;;
    session_commit in
  match view_class self, workspace_name with
  | GenericView, None => base obj
  | GenericWorkspacedView, Some name =>
      assert_no_new ;;;
      workspace <~ _get_workspace db name ;;
      base (mkObj (o_persistent obj) (Some workspace) (o_attrs obj))
  | _, _ => raise TypeError
  end.

(** ** Request handlers *)

Definition session_delete (o : Obj) : M Session unit :=
  modify (fun s => mkSession (session_new s) (trace s ++ [OpDelete o])).

(** The instance the session hands out for a stored row, its
    [workspace] loaded through the foreign key. *)
Definition load (db : Database) (r : Row) : Obj :=
  mkObj true
        (head (List.filter
                 (fun w => bool_decide (ws_id w = r_workspace_id r))
                 (workspaces db)))
        (r_attrs r).

(** [for (key, value) in data.items(): setattr(obj, key, value)] *)
Definition _update_object (obj : Obj) (data : gmap string value) : Obj :=
  mkObj (o_persistent obj) (o_workspace obj) (data ∪ o_attrs obj).

(** [GenericView._filter_query] *)
Definition _filter_query (query : list Row) : list Row := query.

(** What [query.paginate] gives back. *)
Record Pagination := mkPagination {
  items : list Row;
  p_page : Z;
  p_per_page : Z
}.

(** [ListMixin._paginate] *)
Definition ListMixin_paginate (query : list Row)
  : list Row * option Pagination := (query, None).

(** [ListMixin._envelope_list] *)
Definition _envelope_list (objects : list Row)
    (pagination_metadata : option Pagination) : list Row := objects.

(** [ListMixin.index] on a view that overrides none of its hooks; the
    rows are the ones handed to [_dump]. *)
Definition index {S} (self : View) (db : Database)
    (workspace_name : option string) : M S (list Row) :=
  base <~ _get_base_query self db workspace_name ;;
  let query := _filter_query base in
  let '(objects, pagination_metadata) := ListMixin_paginate query in
  ret (_envelope_list objects pagination_metadata).

(** [PaginatedMixin._paginate]. [py_int] is the builtin [int] on the
    text of a query parameter, [None] standing for [ValueError];
    [paginate] is [query.paginate(page, per_page, error_out=False)].
    A missing [page] defaults to the number 1. *)
Definition PaginatedMixin_paginate {S} (py_int : string -> option Z)
    (paginate : list Row -> Z -> Z -> Pagination)
    (args : gmap string string) (query : list Row)
  : M S (list Row * option Pagination) :=
  match args !! "page_size" with
  | Some size_text =>
      let page_value :=
        match args !! "page" with
        | Some text => py_int text
        | None => Some 1
        end in
      match page_value with
      | None => abort 404 "Invalid page number"
      | Some page =>
          match py_int size_text with
          | None => abort 404 "Invalid per_page value"
          | Some per_page =>
              let pagination_metadata := paginate query page per_page in
              ret (items pagination_metadata, Some pagination_metadata)
          end
      end
  | None => ret (ListMixin_paginate query)
  end.

(** [RetrieveMixin.get]; the row is the one handed to [_dump]. *)
Definition RetrieveMixin_get {S} (self : View) (db : Database) (object_id : string)
    (workspace_name : option string) : M S Row :=
  _get_object self db object_id workspace_name.


(** [UpdateMixin.put], from the parsed body on. *)
Definition put (self : View) (db : Database) (object_id : string)
    (data : gmap string value) (workspace_name : option string)
  : M Session (Obj * Z) :=
  r <~ _get_object self db object_id workspace_name ;;
  let obj := _update_object (load db r) data in
  _perform_update self db object_id obj workspace_name ;;;
  ret (obj, 200).

Definition _perform_delete (obj : Obj) : M Session unit :=
  session_delete obj ;;;
  session_commit.

(** [DeleteMixin.delete] *)
Definition DeleteMixin_delete (self : View) (db : Database) (object_id : string)
    (workspace_name : option string) : M Session (pyval * Z) :=
  r <~ _get_object self db object_id workspace_name ;;
  _perform_delete (load db r) ;;;
  ret (PNone, 204).

(** ** Grouped counting *)

Record CountResult := mkCountResult {
  groups : list (gmap string value);
  total_count : Z
}.

(** [db.session.query(model).join(Workspace)
       .filter(Workspace.name == workspace_name)] *)
Definition joined (db : Database) (workspace_name : string) : list Row :=
  r ← table db;
  w ← workspaces db;
  if bool_decide (r_workspace_id r = ws_id w ∧ ws_name w = workspace_name)
  then [r] else [].

(** The keys [GROUP BY col] forms, one group for [NULL] included. *)
Definition group_keys (col : string) (q : list Row) : list value :=
  remove_dups ((fun r => column r col) <$> q).

(** [COUNT(col)] within the group of key [k]: the rows of the group
    whose column is not [NULL]. *)
Definition sql_count (col : string) (k : value) (q : list Row) : Z :=
  if bool_decide (k = VNull) then 0
  else Z.of_nat (length (List.filter
                           (fun r => bool_decide (column r col = k)) q)).

(** [{'count': count, 'name': key, request.args.get('group_by'): key}] *)
Definition group_entry (group_by : string) (key : value) (n : Z)
  : gmap string value :=
  <[group_by := key]> (<["name" := key]> (<["count" := VInt n]> ∅)).

(** [CountWorkspacedMixin.count]; [model_attrs] are the column
    attributes [inspect(self.model_class).attrs] lists, and
    [_filter_query] is the one of [GenericView]. [abort(404)] is given
    no message; its description is the HTTP library's and is left
    empty here. *)
Definition count {S} (model_attrs : list string) (db : Database)
    (args : gmap string string) (workspace_name : string)
  : M S CountResult :=
  let group_by := args !! "group_by" in
  match group_by with
  | Some col =>
      if bool_decide (col = "") || negb (bool_decide (col ∈ model_attrs))
      then abort 404 ""
      else
        let q := _filter_query (joined db workspace_name) in
        ret (foldl (fun res key =>
                      let n := sql_count col key q in
                      mkCountResult (groups res ++ [group_entry col key n])
                                    (total_count res + n))
                   (mkCountResult [] 0) (group_keys col q))
  | None => abort 404 ""
  end.

End Api.

(* ===================================================================== *)
(** * Statements: vocabulary and concrete inputs *)
(* ===================================================================== *)

Module HistogramSpec.
Import Histogram.

(** A change of [k] on the counter of one severity and of nothing on
    the other two. *)
Definition severity_delta (sev : pyval) (k : Z) : Z * Z * Z :=
  (if bool_decide (sev = SEVERITY_MEDIUM) then k else 0,
   if bool_decide (sev = SEVERITY_HIGH) then k else 0,
   if bool_decide (sev = SEVERITY_CRITICAL) then k else 0).

(** The table holds a row for the workspace and the day. *)
Definition has_row (today : date) (w : Z) (tbl : list SeveritiesHistogram)
  : Prop :=
  ∃ r, r ∈ tbl ∧ day r = today ∧ workspace_id r = w.

(** The value an attribute had before the update, read off a history
    that is either unchanged or carries both ends of the change. *)
Definition confirmed_before (h : History) : option pyval :=
  match unchanged h with
  | u :: _ => Some u
  | [] => match deleted h, added h with
          | d :: _, _ :: _ => Some d
          | _, _ => None
          end
  end.

(** The severity the specification takes on a close: the added value
    if there is one, else the unchanged value. *)
Definition severity_claimed (h : History) : option pyval :=
  match added h with
  | a :: _ => Some a
  | [] => head (unchanged h)
  end.

(** The severity the row had before the update: the deleted value if
    there is one, else the unchanged value. *)
Definition severity_before (h : History) : option pyval :=
  match deleted h with
  | d :: _ => Some d
  | [] => head (unchanged h)
  end.

(** The status went from open or re-opened to closed or risk-accepted. *)
Definition closes (h : History) : Prop :=
  unchanged h = [] ∧
  ∃ a d, head (added h) = Some a ∧ head (deleted h) = Some d ∧
         a ∈ CLOSED_STATES ∧ d ∈ OPEN_STATES.

(** The close rule with the severity chosen as the specification words
    it. *)
Definition close_claim : Prop :=
  ∀ today w s sh ch vh sev c,
    closes sh → confirmed_before ch = Some c →
    severity_claimed vh = Some sev → sev ∈ SEVERITIES_ALLOWED →
    alter_histogram_on_update_general today w (Some sh) (Some ch) (Some vh) s =
    let '(m, h, cr) := severity_delta sev (-1) in
    _create_or_update_histogram today w m h cr
                                (if is_True c then -1 else 0) s.

(** A computation that comes back with a value from every store. *)
Definition returns {S A} (c : M S A) : Prop :=
  ∀ s, ∃ s' a, c s = (s', Ok a).

(** *** Concrete inputs *)

Definition closing : History := mkHistory [STATUS_CLOSED] [] [STATUS_OPEN].
Definition still_confirmed : History := mkHistory [] [PBool true] [].
Definition high_to_medium : History :=
  mkHistory [SEVERITY_MEDIUM] [] [SEVERITY_HIGH].
Definition stays_critical : History := mkHistory [] [SEVERITY_CRITICAL] [].

(** Workspace 1 on day 0: three medium, three high, one confirmed. *)
Definition store_3_3 : Store := mkStore [mkRow 7 1 0 3 3 0 1] 8 [].
(** Workspace 1 on day 0: one critical, confirmed. *)
Definition store_critical : Store := mkStore [mkRow 1 1 0 0 0 1 1] 2 [].

Definition new_high : Vuln :=
  mkVuln 1 (Some 1) SEVERITY_HIGH STATUS_OPEN (PBool true).
Definition low_confirmed : Vuln :=
  mkVuln 2 (Some 1) (PStr "low") STATUS_OPEN (PBool true).

(** One open, confirmed, high vulnerability in workspace 5, and a bulk
    update that names it by id but also asks for severity low. *)
Definition vulns : list Vuln :=
  [mkVuln 1 (Some 5) SEVERITY_HIGH STATUS_OPEN (PBool true)].
Definition by_id_and_low : Query :=
  mkQuery [TVulnerability] [("id_1", 1)]
          (fun v => bool_decide (v_id v = 1 ∧ v_severity v = PStr "low")).
Definition store_ws5 : Store := mkStore [mkRow 1 5 0 0 1 0 1] 2 [].
End HistogramSpec.

Module EventsSpec.
Import Events.

(** The child agrees with its parent on both attributes. *)
Definition consistent (instance : Entity) (parent : Parent) : Prop :=
  e_workspace instance = p_workspace parent ∧
  e_workspace_id instance = p_workspace_id parent.

(** A host updated one day and five seconds after its creation. *)
Definition late_update : Asset :=
  mkAsset 1 "Host" (PStr "10.0.0.1") PNone "ws" 0 (86405 * US_PER_SECOND).

Definition models : list Member :=
  [mkMember "Host" true true; mkMember "db" false false].
Definition stray_child : Entity :=
  mkEntity (Some 1) (Some 1) (Some (mkParent (Some 2) (Some 2))).
End EventsSpec.

Module MigrationSpec.
Import Migration.

Definition HIT_COUNT : string := "vulnerability_hit_count".
Definition HIT_COUNT_INDEX : string :=
  "ix_vulnerability_hit_count_workspace_id".

(** Every index sits on a table of the schema. *)
Definition well_formed (s : Schema) : Prop :=
  ∀ n ix, indexes s !! n = Some ix → is_Some (tables s !! i_table ix).

(** A schema that holds the [workspace] table and nothing else. *)
Definition initial : Schema :=
  mkSchema {[ "workspace" :=
                mkTable [mkColumn "id" Integer false] [] ["id"] ]} ∅.
End MigrationSpec.

Module ApiSpec.
Import Api.

(** The rows of the workspace, as the workspaced base query yields
    them. *)
Definition workspace_rows (db : Database) (ws : Workspace) : list Row :=
  List.filter (fun r => bool_decide (r_workspace_id r = ws_id ws)) (table db).

(** The other rows of the workspace that carry the object's value for
    the field. *)
Definition conflicts (self : View) (db : Database) (ws : Workspace)
    (attrs : gmap string value) (object_id : option string) (f : string)
  : list Row :=
  uniqueness_query self f (default VNull (attrs !! f)) object_id
                   (workspace_rows db ws).

(** The name denotes exactly one workspace. *)
Definition resolves (db : Database) (name : string) (ws : Workspace) : Prop :=
  List.filter (fun w => bool_decide (ws_name w = name)) (workspaces db) = [ws].




(** [_get_object] as the specification words it: 404 unless exactly
    one row matches. *)
Definition get_object_claim : Prop :=
  ∀ self db object_id workspace_name q (s : unit),
    is_Some (lookup_field_type self object_id) →
    _get_base_query self db workspace_name s = (s, Ok q) →
    (length (lookup_matches self object_id q) ≠ 1%nat →
       ∃ msg, _get_object self db object_id workspace_name s
              = (s, Raise (HTTPException 404 msg))) ∧
    (∀ r, lookup_matches self object_id q = [r] →
       _get_object self db object_id workspace_name s = (s, Ok r)).

(** *** Concrete inputs *)

Definition lab : Workspace := mkWorkspace 1 "lab".
Definition host_a : Row :=
  mkRow 1 {[ "id" := VInt 10; "ip" := VStr "10.0.0.1" ]}.
Definition host_b : Row :=
  mkRow 1 {[ "id" := VInt 11; "ip" := VStr "10.0.0.1" ]}.
Definition plain_hosts : View := mkView GenericView "id" int ["ip"] "id".
Definition lab_hosts : View :=
  mkView GenericWorkspacedView "id" int ["ip"] "id".
Definition same_ip : gmap string value := {[ "ip" := VStr "10.0.0.1" ]}.
Definition new_host : Obj := mkObj false (Some lab) same_ip.
Definition no_session : Session := mkSession [] [].

(** Tags looked up by a slug that two rows share. *)
Definition tags : View :=
  mkView GenericView "slug" (fun s => Some (VStr s)) [] "id".
Definition tag_a : Row := mkRow 1 {[ "id" := VInt 1; "slug" := VStr "web" ]}.
Definition tag_b : Row := mkRow 1 {[ "id" := VInt 2; "slug" := VStr "web" ]}.
End ApiSpec.

Module HistogramLaws.
Import Histogram HistogramSpec.

(** What a histogram row is keyed by. *)
Definition key (r : SeveritiesHistogram) : Z * date := (workspace_id r, day r).

(** Surrogate keys are distinct and below the sequence, and no workspace
    has two rows for one day. *)
Definition well_formed (s : Store) : Prop :=
  NoDup (map id (rows s)) ∧
  (∀ r, r ∈ rows s → id r < next_id s) ∧
  NoDup (map key (rows s)).

(** The rows of every other day and every other workspace; with no
    workspace these are all rows. *)
Definition others (today : date) (w : option Z) (s : Store)
  : list SeveritiesHistogram :=
  filter (λ r, ¬ (day r = today ∧ Some (workspace_id r) = w)) (rows s).

(** A computation that keeps the store well formed and touches no row
    but the one of the workspace and the day. *)
Definition frames {A} (today : date) (w : option Z) (c : M Store A) : Prop :=
  ∀ s, well_formed s →
       well_formed (c s).1 ∧ others today w (c s).1 = others today w s.

Definition keeps {A} (c : M Store A) : Prop :=
  ∀ s, well_formed s → well_formed (c s).1.

(** The three confirmed deltas an update derives from the history of
    [confirmed]: the plain one, the one for a close, the one for a
    re-open. *)
Definition confirmed_counters (h : History) : option (Z * Z * Z) :=
  match unchanged h with
  | u :: _ => Some (0, if is_True u then -1 else 0, if is_True u then 1 else 0)
  | [] => match deleted h, added h with
          | d :: _, _ :: _ => Some (if is_True d then (-1, -1, 0) else (1, 0, 1))
          | _, _ => None
          end
  end.

(** The status went from closed or risk-accepted to open or re-opened. *)
Definition reopens (h : History) : Prop :=
  unchanged h = [] ∧
  ∃ a d, head (added h) = Some a ∧ head (deleted h) = Some d ∧
         a ∈ OPEN_STATES ∧ d ∈ CLOSED_STATES.

(** The severity the row has after the update. *)
Definition severity_after (h : History) : option pyval :=
  match added h with
  | a :: _ => Some a
  | [] => head (unchanged h)
  end.

(** The severity changed from [d] to [a]. *)
Definition severity_moves (h : History) (d a : pyval) : Prop :=
  unchanged h = [] ∧ head (deleted h) = Some d ∧ head (added h) = Some a.

(** One unit moved from the counter of [d] to the counter of [a], as
    far as they are tracked. *)
Definition moved (d a : pyval) : Z * Z * Z :=
  let one x := if bool_decide (a = x) then 1
               else if bool_decide (d = x) then -1 else 0 in
  (one SEVERITY_MEDIUM, one SEVERITY_HIGH, one SEVERITY_CRITICAL).

(** The target values of a bulk update leave status, severity and
    confirmed of the row as they are. *)
Definition leaves_row (values : gmap string pyval) (v : Vuln) : Prop :=
  (values !! "status" = None ∨ values !! "status" = Some (v_status v)) ∧
  (values !! "severity" = None ∨ values !! "severity" = Some (v_severity v)) ∧
  (values !! "confirmed" = None ∨ values !! "confirmed" = Some (v_confirmed v)).

(** *** Concrete inputs *)

Definition reopening : History := mkHistory [STATUS_RE_OPENED] [] [STATUS_CLOSED].
Definition never_confirmed : History := mkHistory [] [PBool false] [].
Definition stays_medium : History := mkHistory [] [SEVERITY_MEDIUM] [].
Definition stays_closed : History := mkHistory [] [STATUS_CLOSED] [].
Definition stays_open : History := mkHistory [] [STATUS_OPEN] [].
Definition now_confirmed : History := mkHistory [PBool true] [] [PBool false].
(** Workspace 1 and workspace 2 on day 0. *)
Definition two_workspaces : Store :=
  mkStore [mkRow 1 1 0 0 1 0 1; mkRow 2 2 0 4 0 0 0] 3 [].
Definition closed_high : Vuln :=
  mkVuln 3 (Some 1) SEVERITY_HIGH STATUS_CLOSED (PBool false).
Definition hosts_query : Query :=
  mkQuery [TOther "Host"] [("id_1", 1)] (fun _ => true).
Definition all_vulns : Query :=
  mkQuery [TVulnerabilityGeneric] [] (fun _ => true).
End HistogramLaws.

Module EventsLaws.
Import Events.

Definition web_server : Instance :=
  mkInstance 4 "Host" (Some (PStr "10.0.0.1")) PNone "lab".
Definition http : Instance :=
  mkInstance 9 "Service" None (PStr "http") "lab".
Definition notes : World :=
  mkWorld [mkAnnotation 1 4 "host"; mkAnnotation 2 4 "service"]
          [mkAnnotation 1 4 "host"; mkAnnotation 2 5 "host"]
          [mkAnnotation 1 4 "Host"]
          [].
Definition day_two : Asset :=
  mkAsset 1 "Host" (PStr "10.0.0.1") PNone "lab" 0 (40 * US_PER_SECOND).
End EventsLaws.

Module ApiLaws.
Import Api ApiSpec.

(** No configured unique field has a conflicting row. *)
Definition no_conflicts (self : View) (db : Database) (ws : Workspace)
    (attrs : gmap string value) (object_id : option string) : Prop :=
  ∀ f, f ∈ unique_fields self → conflicts self db ws attrs object_id f = [].


(** *** Concrete inputs *)

Definition office : Workspace := mkWorkspace 2 "office".
Definition printer : Row :=
  mkRow 2 {[ "id" := VInt 20; "ip" := VStr "10.0.0.1" ]}.
Definition two_sites : Database := mkDatabase [lab; office] [host_a; printer].
Definition first_ten (q : list Row) (page per_page : Z) : Pagination :=
  mkPagination (take (Z.to_nat per_page) q) page per_page.
End ApiLaws.

(* ===================================================================== *)
(** * The monad *)
(* ===================================================================== *)

Lemma for_each_skip {S A} (xs : list A) (body : A → M S unit) s :
  (∀ x, x ∈ xs → body x s = (s, Ok tt)) → for_each xs body s = (s, Ok tt).
Proof.
  induction xs as [|x xs IH]; intros H; [done|].
  simpl. unfold bind. rewrite H by left. apply IH.
  intros y Hy. apply H. by right.
Qed.

Lemma for_each_filter {S A} (P : A → bool) (xs : list A) (body : M S unit) s :
  for_each xs (fun x => if P x then body else ret tt) s =
  for_each (List.filter P xs) (fun _ => body) s.
Proof.
  revert s. induction xs as [|x xs IH]; intros s; [done|].
  simpl. destruct (P x); simpl; unfold bind.
  - destruct (body s) as [s' [[]|e]]; [apply IH|done].
  - simpl. apply IH.
Qed.

Lemma nonempty_length {A} (x : A) l : (0 <? Z.of_nat (length (x :: l))) = true.
Proof. apply Z.ltb_lt. simpl length. lia. Qed.

(* ===================================================================== *)
(** * Severities histogram: properties *)
(* ===================================================================== *)

Section HistogramFacts.
Import Histogram HistogramSpec.

Lemma returns_ret {S A} (a : A) : returns (@ret S A a).
Proof. intros s. by exists s, a. Qed.

Lemma returns_bind {S A B} (c : M S A) (k : A → M S B) :
  returns c → (∀ a, returns (k a)) → returns (bind c k).
Proof.
  intros Hc Hk s. destruct (Hc s) as (s' & a & E).
  unfold bind. rewrite E. apply Hk.
Qed.

Lemma returns_modify {S} (f : S → S) : returns (modify f).
Proof. intros s. by exists (f s), tt. Qed.

Lemma returns_for_each {S A} (xs : list A) (body : A → M S unit) :
  (∀ x, returns (body x)) → returns (for_each xs body).
Proof.
  intros H. induction xs; [apply returns_ret|].
  simpl. apply returns_bind; auto.
Qed.

Lemma py_in_true v xs : v ∈ xs → py_in v xs = true.
Proof. intros. unfold py_in. by apply bool_decide_eq_true. Qed.

Lemma py_in_false v xs : v ∉ xs → py_in v xs = false.
Proof. intros. unfold py_in. by apply bool_decide_eq_false. Qed.

(** [first()] finds nothing exactly when the table has no row for the
    workspace and the day. *)
Lemma query_first_None today w tbl :
  query_first today w tbl = None ↔ ¬ has_row today w tbl.
Proof.
  unfold query_first, has_row. rewrite fmap_None, head_None. split.
  - intros Hnil [r (Hin & Hd & Hw)].
    assert (r ∈ filter (λ r, day r = today ∧ workspace_id r = w) tbl) as Hf
      by (apply list_elem_of_filter; auto).
    rewrite Hnil in Hf. by apply not_elem_of_nil in Hf.
  - intros Hno. destruct (filter _ tbl) as [|r l] eqn:E; [done|].
    exfalso. apply Hno. exists r.
    assert (r ∈ filter (λ r, day r = today ∧ workspace_id r = w) tbl) as Hf
      by (rewrite E; left).
    apply list_elem_of_filter in Hf as [[? ?] ?]. auto.
Qed.

Lemma query_first_Some today w tbl i :
  query_first today w tbl = Some i →
  ∃ r, r ∈ tbl ∧ day r = today ∧ workspace_id r = w ∧ id r = i.
Proof.
  unfold query_first. intros H. apply fmap_Some in H as (r & Hh & ->).
  exists r. apply head_Some_elem_of in Hh.
  apply list_elem_of_filter in Hh as [[? ?] ?]. auto.
Qed.

(** The aggregate write on a workspace that is set: insert when the day
    has no row yet, add to the row found otherwise. *)
Lemma create_or_update_Some today w m h c cf s :
  _create_or_update_histogram today (Some w) m h c cf s =
  (match query_first today w (rows s) with
   | None => mkStore (rows s ++ [mkRow (next_id s) w today m h c cf])
                     (next_id s + 1) (errors s)
   | Some i => mkStore (map (fun r => if bool_decide (id r = i)
                                      then add_deltas m h c cf r else r)
                            (rows s))
                       (next_id s) (errors s)
   end, Ok tt).
Proof.
  unfold _create_or_update_histogram, bind, get.
  destruct (query_first today w (rows s)); reflexivity.
Qed.

(** A workspace left unset is logged and nothing else happens. *)
Lemma create_or_update_None today m h c cf s :
  _create_or_update_histogram today None m h c cf s =
  (mkStore (rows s) (next_id s)
     (errors s ++ ["Workspace with None value. Histogram could not be updated"]),
   Ok tt).
Proof. reflexivity. Qed.

(** A history that is absent is logged and nothing else happens. *)
Lemma absent_history_is_logged today w sh ch vh s :
  sh = None ∨ ch = None ∨ vh = None →
  alter_histogram_on_update_general today w sh ch vh s =
  (mkStore (rows s) (next_id s)
           (errors s ++ ["Not all history fields provided"]), Ok tt).
Proof.
  destruct sh, ch, vh; try reflexivity. intros [?|[?|?]]; discriminate.
Qed.

Lemma returns_create_or_update today w m h c cf :
  returns (_create_or_update_histogram today w m h c cf).
Proof.
  destruct w as [w|]; [|apply returns_modify].
  intros s. rewrite create_or_update_Some. eauto.
Qed.

Ltac returns_step :=
  match goal with
  | |- returns (ret _) => apply returns_ret
  | |- returns (logger_error _) => apply returns_modify
  | |- returns (_create_or_update_histogram _ _ _ _ _ _) =>
      apply returns_create_or_update
  | |- returns (bind _ _) => apply returns_bind; [|intros ?]
  | |- returns (item0 (_ :: _)) => apply returns_ret
  | |- returns (local _ (Some _)) => apply returns_ret
  | |- context [if ?b then _ else _] => destruct b
  | |- context [let '(_, _) := ?p in _] => destruct p
  end.

(** On the histories rebuilt from the target values of a bulk update the
    update logic always comes back: both ends of a change are there. *)
Lemma returns_update_row today values instance :
  returns (update_row today values instance).
Proof.
  unfold update_row, get_history_from_context_values.
  destruct (values !! "status") as [st|];
  destruct (values !! "severity") as [sv|];
  destruct (values !! "confirmed") as [cf|];
  repeat case_bool_decide;
  unfold alter_histogram_on_update_general, update_general_tail, and_then;
  simpl; repeat returns_step.
Qed.

Lemma delete_untracked today instance s :
  v_severity instance ∉ SEVERITIES_ALLOWED →
  alter_histogram_on_delete today instance s = (s, Ok tt) ∧
  delete_row today instance s = (s, Ok tt).
Proof.
  intros H. unfold alter_histogram_on_delete, delete_row.
  rewrite (py_in_false _ _ H). by destruct (py_in _ OPEN_STATES).
Qed.

End HistogramFacts.

Section HistogramClaims.
Import Histogram HistogramSpec.

(** Claim C6. Inserting a vulnerability whose severity is medium, high or
    critical, in a workspace that is set, adds 1 to that severity's
    counter and 1 to [confirmed] exactly when the row is confirmed, at
    (workspace_id, today): when the day has no row yet a new row is
    appended whose counters are those deltas, and otherwise the deltas
    are added to the columns of the row found. *)
Theorem insert_updates_histogram today instance w s :
  v_severity instance ∈ SEVERITIES_ALLOWED →
  v_workspace_id instance = Some w →
  let '(m, h, c) := severity_delta (v_severity instance) 1 in
  let cf := if truthy (v_confirmed instance) then 1 else 0 in
  (¬ has_row today w (rows s) →
     alter_histogram_on_insert today instance s =
     (mkStore (rows s ++ [mkRow (next_id s) w today m h c cf])
              (next_id s + 1) (errors s), Ok tt)) ∧
  (has_row today w (rows s) →
     ∃ r0, r0 ∈ rows s ∧ day r0 = today ∧ workspace_id r0 = w ∧
       alter_histogram_on_insert today instance s =
       (mkStore (map (fun r => if bool_decide (id r = id r0)
                               then add_deltas m h c cf r else r) (rows s))
                (next_id s) (errors s), Ok tt)).
Proof.
  intros Hsev Hw.
  destruct (severity_delta (v_severity instance) 1) as [[m h] c] eqn:Hd.
  unfold alter_histogram_on_insert.
  rewrite (py_in_true _ _ Hsev).
  change (_increase_severities_histogram (v_severity instance) 0 0 0)
    with (severity_delta (v_severity instance) 1).
  rewrite Hd, Hw, create_or_update_Some. split.
  - intros Hno. apply query_first_None in Hno. by rewrite Hno.
  - intros Hex. destruct (query_first today w (rows s)) as [i|] eqn:Hq.
    + apply query_first_Some in Hq as (r & Hin & Hday & Hws & <-).
      exists r. done.
    + apply query_first_None in Hq. done.
Qed.

(** Claim C6 at a concrete input: a confirmed high vulnerability inserted
    into workspace 1 on a day without a row creates the row
    [high = 1, confirmed = 1, medium = 0, critical = 0]. *)
Lemma insert_updates_histogram_witness :
  alter_histogram_on_insert 0 new_high (mkStore [] 1 []) =
  (mkStore [mkRow 1 1 0 0 1 0 1] 2 [], Ok tt).
Proof.
  assert (v_severity new_high ∈ SEVERITIES_ALLOWED) as Hsev
    by (apply (bool_decide_unpack _); vm_compute; exact I).
  destruct (insert_updates_histogram 0 new_high 1 (mkStore [] 1 [])
              Hsev eq_refl) as [Hnew _].
  apply Hnew. intros (r & Hr & _). simpl in Hr. inversion Hr.
Defined.

(** Claim C1, as the specification states it, does not hold: when the
    severity changes from high to medium in the update that closes the
    vulnerability, the counter that loses 1 is [high], not [medium]. *)
Lemma close_claim_fails : ¬ close_claim.
Proof.
  intros H.
  assert (closes closing) as Hc.
  { split; [done|]. exists STATUS_CLOSED, STATUS_OPEN.
    repeat split; apply (bool_decide_unpack _); vm_compute; exact I. }
  assert (SEVERITY_MEDIUM ∈ SEVERITIES_ALLOWED) as Hm
    by (apply (bool_decide_unpack _); vm_compute; exact I).
  specialize (H 0 (Some 1) store_3_3 closing still_confirmed high_to_medium
                SEVERITY_MEDIUM (PBool true) Hc eq_refl eq_refl Hm).
  vm_compute in H. discriminate H.
Qed.

(** Claim C1, amended. When the status goes from open or re-opened to
    closed or risk-accepted and the severity the row had before the
    update is tracked - the deleted value if the severity changed in the
    same update, else the unchanged value - the histogram update is one
    aggregate write that subtracts 1 from that severity's counter and
    applies a confirmed delta of -1 if [confirmed] was [True] before the
    update and 0 otherwise. *)
Theorem close_transition_uses_previous_severity today w s sh ch vh sev c :
  closes sh → confirmed_before ch = Some c →
  severity_before vh = Some sev → sev ∈ SEVERITIES_ALLOWED →
  alter_histogram_on_update_general today w (Some sh) (Some ch) (Some vh) s =
  let '(m, h, cr) := severity_delta sev (-1) in
  _create_or_update_histogram today w m h cr (if is_True c then -1 else 0) s.
Proof.
  intros (Hu & a & d & Ha & Hd & Hac & Hdo) Hc Hsev Htr.
  assert (∀ cc cr,
    update_general_tail today w sh vh cc (if is_True c then -1 else 0) cr s =
    let '(m, h, cr) := severity_delta sev (-1) in
    _create_or_update_histogram today w m h cr (if is_True c then -1 else 0) s)
    as Htail.
  { intros cc cr. unfold update_general_tail.
    destruct sh as [sa su sd]; simpl in *. subst su.
    destruct sa as [|a' sa]; [done|]. destruct sd as [|d' sd]; [done|].
    simpl in Ha, Hd. simplify_eq.
    unfold and_then, bind, item0, ret.
    rewrite (py_in_true _ _ Hac), (py_in_true _ _ Hdo).
    unfold severity_before in Hsev.
    destruct vh as [va vu vd]; simpl in *.
    destruct vd as [|d0 vd].
    - destruct vu as [|u0 vu]; [done|]. simpl in Hsev. simplify_eq.
      rewrite (nonempty_length sev vu). simpl.
      by rewrite (py_in_true _ _ Htr).
    - simplify_eq. rewrite (nonempty_length sev vd). simpl.
      by rewrite (py_in_true _ _ Htr). }
  unfold alter_histogram_on_update_general, confirmed_before in *.
  destruct ch as [ca cu cd]; simpl in *.
  destruct cu as [|u cu].
  - destruct cd as [|d0 cd]; [done|].
    destruct ca as [|a0 ca]; [done|]. simplify_eq. simpl.
    unfold bind at 1. simpl. destruct (is_True c); apply Htail.
  - simplify_eq. rewrite nonempty_length. unfold bind at 1. simpl.
    apply Htail.
Qed.

(** Claim C1, amended, at a concrete input: closing an open, confirmed,
    critical vulnerability takes 1 off [critical] and 1 off [confirmed]. *)
Lemma close_transition_uses_previous_severity_witness :
  alter_histogram_on_update_general 0 (Some 1) (Some closing)
    (Some still_confirmed) (Some stays_critical) store_critical
  = (mkStore [mkRow 1 1 0 0 0 0 0] 2 [], Ok tt).
Proof.
  assert (closes closing) as Hc.
  { split; [reflexivity|]. exists STATUS_CLOSED, STATUS_OPEN.
    repeat split; apply (bool_decide_unpack _); vm_compute; exact I. }
  assert (SEVERITY_CRITICAL ∈ SEVERITIES_ALLOWED) as Ht
    by (apply (bool_decide_unpack _); vm_compute; exact I).
  rewrite (close_transition_uses_previous_severity 0 (Some 1) store_critical
             closing still_confirmed stays_critical SEVERITY_CRITICAL
             (PBool true) Hc eq_refl eq_refl Ht).
  reflexivity.
Defined.

(** Claim C7 fails on the code. A status history that carries the new
    value but not the old one makes the update logic raise [IndexError],
    and a severity history in the same state on a close makes it raise
    [UnboundLocalError]; in both cases nothing is logged. *)
Theorem partial_history_raises today w s :
  alter_histogram_on_update_general today w
    (Some (mkHistory [STATUS_CLOSED] [] []))
    (Some (mkHistory [] [PBool true] []))
    (Some (mkHistory [] [SEVERITY_HIGH] [])) s = (s, Raise IndexError)
  ∧
  alter_histogram_on_update_general today w
    (Some (mkHistory [STATUS_CLOSED] [] [STATUS_OPEN]))
    (Some (mkHistory [] [PBool true] []))
    (Some (mkHistory [SEVERITY_HIGH] [] [])) s
  = (s, Raise (UnboundLocalError "severity")).
Proof. split; reflexivity. Qed.

(** Claim C9. When the compiled statement of a bulk update carries id
    parameters, the rows the histogram logic walks are the
    vulnerabilities whose id is among those parameters, once per
    vulnerability column description and whatever else the query filters
    by; every such row is processed, none of them raising, and two
    queries that differ only in their criteria leave the same
    histogram. *)
Theorem bulk_update_reads_id_parameters today tbl query values s :
  id_params (params query) ≠ [] →
  alter_histogram_on_before_compile_update today tbl query values s =
    for_each (List.filter is_vuln_type (column_descriptions query))
      (fun _ => for_each (query_by_ids (id_params (params query)) tbl)
                         (update_row today values)) s
  ∧ (∃ s', alter_histogram_on_before_compile_update today tbl query values s
           = (s', Ok tt))
  ∧ (∀ other, column_descriptions other = column_descriptions query →
              params other = params query →
       alter_histogram_on_before_compile_update today tbl other values s =
       alter_histogram_on_before_compile_update today tbl query values s).
Proof.
  intros Hids.
  assert (∀ q, id_params (params q) ≠ [] →
    alter_histogram_on_before_compile_update today tbl q values s =
    for_each (List.filter is_vuln_type (column_descriptions q))
      (fun _ => for_each (query_by_ids (id_params (params q)) tbl)
                         (update_row today values)) s) as Heq.
  { intros q Hq. unfold alter_histogram_on_before_compile_update.
    destruct (id_params (params q)) as [|i ids] eqn:E; [done|].
    simpl negb. cbv iota. apply for_each_filter. }
  split; [by apply Heq|]. split.
  - rewrite Heq by done.
    destruct (returns_for_each
      (List.filter is_vuln_type (column_descriptions query))
      (fun _ => for_each (query_by_ids (id_params (params query)) tbl)
                         (update_row today values))) with (s := s)
      as (s' & [] & E).
    + intros _. apply returns_for_each. intros v. apply returns_update_row.
    + eauto.
  - intros other Hd Hp. rewrite !Heq by (rewrite ?Hp; done).
    by rewrite Hd, Hp.
Qed.

(** Claim C9 at a concrete input: the query names vulnerability 1 by id
    and also asks for severity low, so it selects no row; the bulk close
    still takes the open, confirmed, high vulnerability 1 off the
    histogram. *)
Lemma bulk_update_reads_id_parameters_witness :
  query_all by_id_and_low vulns = [] ∧
  alter_histogram_on_before_compile_update 0 vulns by_id_and_low
    {[ "status" := STATUS_CLOSED ]} store_ws5
  = (mkStore [mkRow 1 5 0 0 0 0 0] 2 [], Ok tt).
Proof.
  split; [reflexivity|].
  destruct (bulk_update_reads_id_parameters 0 vulns by_id_and_low
              {[ "status" := STATUS_CLOSED ]} store_ws5) as [E _].
  - discriminate.
  - rewrite E. vm_compute. reflexivity.
Defined.

(** Claim C10. Deleting a vulnerability whose severity is not medium,
    high or critical leaves the store as it was, the [confirmed] counter
    included, whatever the row's status and confirmed flag; this holds
    for the row-level hook, for the body of the bulk hook, and for a
    bulk delete all of whose rows have such a severity. *)
Theorem delete_untracked_severity today instance s :
  v_severity instance ∉ SEVERITIES_ALLOWED →
  alter_histogram_on_delete today instance s = (s, Ok tt) ∧
  delete_row today instance s = (s, Ok tt) ∧
  ∀ tbl query,
    (∀ v, v ∈ query_all query tbl → v_severity v ∉ SEVERITIES_ALLOWED) →
    alter_histogram_on_before_compile_delete today tbl query s = (s, Ok tt).
Proof.
  intros H. destruct (delete_untracked today instance s H) as [H1 H2].
  split; [done|]. split; [done|]. intros tbl query Hall.
  unfold alter_histogram_on_before_compile_delete.
  apply for_each_skip. intros d _. destruct (is_vuln_type d); [|done].
  apply for_each_skip. intros v Hv.
  by apply delete_untracked, Hall.
Qed.

(** Claim C10 at a concrete input: an open, confirmed vulnerability of
    severity low is deleted and the histogram row keeps [confirmed = 1]. *)
Lemma delete_untracked_severity_witness :
  alter_histogram_on_delete 0 low_confirmed store_critical
  = (store_critical, Ok tt).
Proof.
  apply (delete_untracked_severity 0 low_confirmed store_critical).
  intros Hin. apply (bool_decide_pack _) in Hin. vm_compute in Hin. exact Hin.
Defined.

End HistogramClaims.

(* ===================================================================== *)
(** * Change queue and workspace consistency: properties *)
(* ===================================================================== *)

Section EventsFacts.
Import Events EventsSpec.

(** What [update_object_event] tests is the seconds field of the
    difference, which starts again from 0 every whole day. *)
Lemma update_object_event_spec instance q :
  update_object_event instance q =
  if ((update_date instance - create_date instance) mod US_PER_DAY)
       / US_PER_SECOND <? 30
  then (q, Ok tt)
  else (q ++ [mkMessage (a_id instance) "UPDATE" (a_class instance)
                        (py_or (a_ip instance) (a_name instance))
                        (a_workspace_name instance)], Ok tt).
Proof.
  unfold update_object_event, datetime_sub. simpl seconds.
  by destruct (_ <? 30).
Qed.

(** Extra X15. Within the first day after creation the hook enqueues
    one UPDATE message exactly when 30 seconds or more have passed. *)
Lemma update_within_first_day instance q :
  0 <= update_date instance - create_date instance < US_PER_DAY →
  (∃ msg, update_object_event instance q = (q ++ [msg], Ok tt)
          ∧ msg_action msg = "UPDATE")
  ↔ 30 <= elapsed_seconds (update_date instance) (create_date instance).
Proof.
  intros Hr. rewrite update_object_event_spec. unfold elapsed_seconds.
  rewrite Z.mod_small by done.
  destruct (Z.ltb_spec ((update_date instance - create_date instance)
                        / US_PER_SECOND) 30).
  - split; [|lia]. intros (msg & E & _). exfalso.
    apply (f_equal (λ p, length (fst p))) in E. simpl in E.
    rewrite length_app in E. simpl in E. lia.
  - split; [done|]. intros _. eexists. split; [reflexivity|done].
Qed.

Lemma checks_only members l :
  l ∈ register_workspace_checks members →
  l_fn l = H_check_child_has_same_workspace.
Proof.
  unfold register_workspace_checks. rewrite list_elem_of_bind.
  intros (m & Hl & _).
  destruct (member_isclass m && member_workspace_id m).
  - apply elem_of_cons in Hl as [-> | Hl]; [done|].
    apply elem_of_cons in Hl as [-> | Hl]; [done|].
    by apply not_elem_of_nil in Hl.
  - by apply not_elem_of_nil in Hl.
Qed.

Lemma check_registered members m ev :
  m ∈ members → member_isclass m = true → member_workspace_id m = true →
  ev = "after_insert" ∨ ev = "after_update" →
  mkListener (member_name m) ev H_check_child_has_same_workspace
    ∈ register_workspace_checks members.
Proof.
  intros Hm Hc Hw Hev. unfold register_workspace_checks.
  apply list_elem_of_bind. exists m. split; [|done].
  rewrite Hc, Hw. simpl. destruct Hev as [-> | ->]; [left|right; left].
Qed.

Lemma handlers_for_app r1 r2 t e :
  handlers_for (r1 ++ r2) t e = handlers_for r1 t e ++ handlers_for r2 t e.
Proof. unfold handlers_for. by rewrite List.filter_app, fmap_app. Qed.

Lemma handlers_for_elem reg t e h :
  h ∈ handlers_for reg t e ↔
  ∃ l, l ∈ reg ∧ l_target l = t ∧ l_event l = e ∧ l_fn l = h.
Proof.
  unfold handlers_for. rewrite list_elem_of_fmap. split.
  - intros (l & -> & Hl). apply list_elem_of_In, filter_In in Hl as [Hin Hb].
    apply bool_decide_eq_true in Hb as [? ?]. exists l.
    by rewrite list_elem_of_In.
  - intros (l & Hin & Ht & He & Hf). exists l. split; [done|].
    apply list_elem_of_In, filter_In. split; [by apply list_elem_of_In|].
    by apply bool_decide_eq_true.
Qed.

(** The registration loop runs before every other [event.listen], so on
    a class it covers the consistency check is the first listener. *)
Lemma check_runs_first members m ev :
  m ∈ members → member_isclass m = true → member_workspace_id m = true →
  ev = "after_insert" ∨ ev = "after_update" →
  ∃ rest, handlers_for (listeners members) (member_name m) ev
          = H_check_child_has_same_workspace :: rest.
Proof.
  intros Hm Hc Hw Hev. unfold listeners. rewrite handlers_for_app.
  destruct (handlers_for (register_workspace_checks members) (member_name m) ev)
    as [|h hs] eqn:E.
  - exfalso.
    assert (H_check_child_has_same_workspace ∈
            handlers_for (register_workspace_checks members) (member_name m) ev)
      as Hin.
    { apply handlers_for_elem. eexists. split; [by apply check_registered|done]. }
    rewrite E in Hin. by apply not_elem_of_nil in Hin.
  - assert (h ∈ handlers_for (register_workspace_checks members)
                             (member_name m) ev) as Hin by (rewrite E; left).
    apply handlers_for_elem in Hin as (l & Hl & _ & _ & <-).
    rewrite (checks_only _ _ Hl). eauto.
Qed.

Lemma check_outcome {S} instance parent (s : S) :
  e_parent instance = Some parent →
  (consistent instance parent →
     after_insert_check_child_has_same_workspace instance s = (s, Ok tt)) ∧
  (¬ consistent instance parent →
     ∃ msg, after_insert_check_child_has_same_workspace instance s
            = (s, Raise (AssertionError msg))).
Proof.
  intros Hp. unfold after_insert_check_child_has_same_workspace, consistent.
  rewrite Hp. unfold bind, py_assert. split.
  - intros [-> ->]. by rewrite !bool_decide_eq_true_2.
  - intros Hn. case_bool_decide; simpl; [|eauto].
    case_bool_decide; simpl; [|eauto]. tauto.
Qed.

(** Claim C4 fails on the code. A host updated one day and five seconds
    after its creation, 86405 seconds later, is past the 30 second
    window, and yet [update_object_event] leaves the queue empty: the
    test reads the seconds field of the difference, which is 5. *)
Theorem update_one_day_later_not_enqueued :
  elapsed_seconds (update_date late_update) (create_date late_update) = 86405
  ∧ seconds (datetime_sub (update_date late_update) (create_date late_update))
    = 5
  ∧ update_object_event late_update [] = ([], Ok tt).
Proof. repeat split; reflexivity. Qed.

(** Claim C5. For every class member of the models module that declares
    [workspace_id], the consistency check listens to [after_insert] and
    to [after_update]. On an instance with a parent it returns when
    workspace and workspace_id both equal the parent's, and raises
    [AssertionError] when they do not; being the first listener, that
    error is what the dispatch of the event ends with, no later hook
    having run and the world left as it was. *)
Theorem workspace_check_enforced members m ev :
  m ∈ members → member_isclass m = true → member_workspace_id m = true →
  ev = "after_insert" ∨ ev = "after_update" →
  H_check_child_has_same_workspace
    ∈ handlers_for (listeners members) (member_name m) ev
  ∧ ∀ S (run_other : Handler → Entity → M S unit) instance parent (s : S),
      e_parent instance = Some parent →
      (consistent instance parent →
         after_insert_check_child_has_same_workspace instance s = (s, Ok tt)) ∧
      (¬ consistent instance parent →
         ∃ msg,
           after_insert_check_child_has_same_workspace instance s
             = (s, Raise (AssertionError msg)) ∧
           fire run_other (listeners members) (member_name m) ev instance s
             = (s, Raise (AssertionError msg))).
Proof.
  intros Hm Hc Hw Hev.
  destruct (check_runs_first members m ev Hm Hc Hw Hev) as [rest E].
  split; [rewrite E; left|].
  intros S run_other instance parent s Hp.
  destruct (check_outcome instance parent s Hp) as [Hok Hbad].
  split; [done|]. intros Hn. destruct (Hbad Hn) as [msg Hr].
  exists msg. split; [done|].
  unfold fire. rewrite E. simpl. unfold bind. simpl. by rewrite Hr.
Qed.

(** Claim C5 at a concrete input: a Host of workspace 1 whose parent is
    in workspace 2 makes the [after_update] dispatch end in an
    assertion failure. *)
Lemma workspace_check_enforced_witness :
  ∃ msg, fire (fun _ _ => ret tt) (listeners models) "Host" "after_update"
              stray_child tt = (tt, Raise (AssertionError msg)).
Proof.
  assert (mkMember "Host" true true ∈ models) as Hin by left.
  destruct (workspace_check_enforced models (mkMember "Host" true true)
              "after_update" Hin eq_refl eq_refl (or_intror eq_refl))
    as [_ Hrun].
  destruct (Hrun unit (fun _ _ => ret tt) stray_child
                 (mkParent (Some 2) (Some 2)) tt eq_refl) as [_ Hbad].
  destruct Hbad as (msg & _ & Hfire).
  - intros [Hws _]. simpl in Hws. discriminate Hws.
  - exists msg. exact Hfire.
Defined.

End EventsFacts.

(* ===================================================================== *)
(** * Migration: properties *)
(* ===================================================================== *)

Section MigrationFacts.
Import Migration MigrationSpec.

Lemma hit_count_layout :
  length (t_columns vulnerability_hit_count) = 35%nat ∧
  c_name <$> t_columns vulnerability_hit_count
    = ["id"; "workspace_id"; "date"] ++ counter_names ∧
  length counter_names = 32%nat ∧ NoDup counter_names ∧
  Forall (fun c => c_nullable c = false) (t_columns vulnerability_hit_count) ∧
  Forall (fun c => c_type c = Integer)
         (take 2 (t_columns vulnerability_hit_count)
          ++ drop 3 (t_columns vulnerability_hit_count)) ∧
  t_columns vulnerability_hit_count !! 2%nat
    = Some (mkColumn "date" Date false) ∧
  t_primary_key vulnerability_hit_count = ["id"] ∧
  t_foreign_keys vulnerability_hit_count
    = [mkFK ["workspace_id"] "workspace" ["id"]].
Proof.
  repeat split; try reflexivity;
    apply (bool_decide_unpack _); vm_compute; exact I.
Qed.

Lemma upgrade_downgrade s :
  well_formed s →
  tables s !! HIT_COUNT = None →
  indexes s !! HIT_COUNT_INDEX = None →
  is_Some (tables s !! "workspace") →
  ∃ s', upgrade s = (s', Ok tt) ∧
        tables s' = <[HIT_COUNT := vulnerability_hit_count]> (tables s) ∧
        indexes s' = <[HIT_COUNT_INDEX :=
                         mkIndex HIT_COUNT ["workspace_id"] false]> (indexes s) ∧
        downgrade s' = (s, Ok tt).
Proof.
  intros Hwf Ht Hi Hw. destruct s as [ts ixs]; simpl in *.
  eexists. split; [|split; [|split]].
  - unfold upgrade, bind, op_create_table, op_create_index. simpl.
    fold HIT_COUNT HIT_COUNT_INDEX.
    rewrite bool_decide_eq_false_2 by (rewrite Ht; by intros [? ?]).
    rewrite bool_decide_eq_true_2 by (repeat constructor; done).
    simpl. rewrite bool_decide_eq_false_2 by (rewrite Hi; by intros [? ?]).
    rewrite bool_decide_eq_true_2 by (rewrite lookup_insert_eq; eauto).
    reflexivity.
  - done.
  - done.
  - unfold downgrade, bind, op_drop_index, op_drop_table. simpl.
    fold HIT_COUNT HIT_COUNT_INDEX.
    rewrite bool_decide_eq_true_2 by (rewrite lookup_insert_eq; eauto).
    simpl. rewrite bool_decide_eq_true_2 by (rewrite lookup_insert_eq; eauto).
    rewrite !delete_insert_id by done.
    rewrite map_filter_id; [done|].
    intros n ix Hn. simpl. intros Heq. apply Hwf in Hn as [t Hn].
    simpl in Hn. rewrite Heq in Hn. congruence.
Qed.

(** Claim C8, as the specification states it, does not hold: the table
    that [upgrade] creates does not have 34 columns. *)
Lemma hit_count_not_34_columns :
  length (t_columns vulnerability_hit_count) ≠ 34%nat.
Proof. vm_compute. discriminate. Qed.

(** Claim C8, amended. On a schema that holds [workspace] and neither
    the table nor the index, [upgrade] creates [vulnerability_hit_count]
    with exactly 35 columns - [id], a non-nullable integer
    [workspace_id] with a foreign key to [workspace.id], a [date], and
    exactly 32 non-nullable integer counters named
    severity_status_confirmation, one for each of the 4 x 4 x 2
    combinations - and the non-unique index on [workspace_id];
    [downgrade], which drops the index and then the table, gives the
    schema back as it was. *)
Theorem upgrade_creates_hit_count s :
  well_formed s →
  tables s !! HIT_COUNT = None →
  indexes s !! HIT_COUNT_INDEX = None →
  is_Some (tables s !! "workspace") →
  (∃ s', upgrade s = (s', Ok tt) ∧
         tables s' !! HIT_COUNT = Some vulnerability_hit_count ∧
         indexes s' !! HIT_COUNT_INDEX
           = Some (mkIndex HIT_COUNT ["workspace_id"] false) ∧
         downgrade s' = (s, Ok tt)) ∧
  length (t_columns vulnerability_hit_count) = 35%nat ∧
  c_name <$> t_columns vulnerability_hit_count
    = ["id"; "workspace_id"; "date"] ++ counter_names ∧
  length counter_names = 32%nat ∧ NoDup counter_names ∧
  Forall (fun c => c_nullable c = false) (t_columns vulnerability_hit_count) ∧
  Forall (fun c => c_type c = Integer)
         (take 2 (t_columns vulnerability_hit_count)
          ++ drop 3 (t_columns vulnerability_hit_count)) ∧
  t_foreign_keys vulnerability_hit_count
    = [mkFK ["workspace_id"] "workspace" ["id"]].
Proof.
  intros Hwf Ht Hi Hw.
  destruct (upgrade_downgrade s Hwf Ht Hi Hw) as (s' & Hup & Hts & Hixs & Hdown).
  destruct hit_count_layout as (L1 & L2 & L3 & L4 & L5 & L6 & _ & _ & L9).
  split; [|done].
  exists s'. split; [done|]. rewrite Hts, Hixs, !lookup_insert_eq. done.
Qed.

(** Claim C8, amended, at a concrete input: the schema that holds only
    [workspace] is upgraded and downgraded back to itself. *)
Lemma upgrade_creates_hit_count_witness :
  ∃ s', upgrade initial = (s', Ok tt) ∧ downgrade s' = (initial, Ok tt).
Proof.
  destruct (upgrade_creates_hit_count initial) as [(s' & Hup & _ & _ & Hdown) _].
  - intros n ix Hn. vm_compute in Hn. discriminate Hn.
  - reflexivity.
  - reflexivity.
  - eexists. reflexivity.
  - exists s'. split; [exact Hup | exact Hdown].
Defined.

End MigrationFacts.

(* ===================================================================== *)
(** * Generic resource API: properties *)
(* ===================================================================== *)

Section ApiFacts.
Import Api ApiSpec.

Lemma resolves_name db name ws : resolves db name ws → ws_name ws = name.
Proof.
  unfold resolves. intros H.
  assert (In ws (List.filter (fun w => bool_decide (ws_name w = name))
                             (workspaces db))) as Hin
    by (rewrite H; left; reflexivity).
  apply filter_In in Hin as [_ Hb]. by apply bool_decide_eq_true in Hb.
Qed.

Lemma get_workspace_resolves {S} db name ws (s : S) :
  resolves db name ws → _get_workspace db name s = (s, Ok ws).
Proof. intros H. unfold _get_workspace, try_except. by rewrite H. Qed.

Lemma base_query_workspaced {S} self db name ws (s : S) :
  view_class self = GenericWorkspacedView → resolves db name ws →
  _get_base_query self db (Some name) s = (s, Ok (workspace_rows db ws)).
Proof.
  intros Hv Hr. unfold _get_base_query. rewrite Hv. unfold bind.
  by rewrite (get_workspace_resolves _ _ _ _ Hr).
Qed.

(** The rows the uniqueness query yields are the other rows of the
    workspace that carry the value. *)
Lemma conflicts_elem self db ws attrs oid f r :
  r ∈ conflicts self db ws attrs oid f ↔
  r ∈ table db ∧ r_workspace_id r = ws_id ws ∧
  column r f = default VNull (attrs !! f) ∧
  match oid with
  | Some i => db_eq (column r (primary_key self)) i = false
  | None => True
  end.
Proof.
  unfold conflicts, uniqueness_query, workspace_rows.
  destruct oid as [i|]; rewrite !list_elem_of_In, !filter_In,
    ?bool_decide_eq_true, ?negb_true_iff; tauto.
Qed.


(** Two stored rows with the value make the workspaced validation end in
    [MultipleResultsFound], with no rollback. *)
Lemma duplicates_raise_multiple_results :
  _validate_uniqueness lab_hosts (mkDatabase [lab] [host_a; host_b]) new_host
                       None no_session
  = (no_session, Raise MultipleResultsFound).
Proof. vm_compute. reflexivity. Qed.




(** Claim C3, as the specification states it, does not hold: when two
    rows match the lookup field the call does not fail with 404. *)
Lemma get_object_claim_fails : ¬ get_object_claim.
Proof.
  intros H.
  destruct (H tags (mkDatabase [] [tag_a; tag_b]) "web" None
              [tag_a; tag_b] tt) as [H404 _].
  - by eexists.
  - reflexivity.
  - destruct H404 as [msg E]; [vm_compute; discriminate|].
    vm_compute in E. discriminate E.
Qed.

(** Claim C3, amended. With a well-formed lookup id and a base query
    that comes back, [_get_object] fails with NotFound (404) when no row
    matches the lookup field, returns the row when exactly one matches,
    and lets [MultipleResultsFound] through, which is not a 404, when
    more than one matches. *)
Theorem get_object_outcome {S} self db object_id workspace_name q (s : S) :
  is_Some (lookup_field_type self object_id) →
  _get_base_query self db workspace_name s = (s, Ok q) →
  (lookup_matches self object_id q = [] →
     _get_object self db object_id workspace_name s =
     (s, Raise (HTTPException 404
                  ("Object with id " +:+ DQUOTE +:+ object_id +:+ DQUOTE
                   +:+ " not found")))) ∧
  (∀ r, lookup_matches self object_id q = [r] →
     _get_object self db object_id workspace_name s = (s, Ok r)) ∧
  ((2 <= length (lookup_matches self object_id q))%nat →
     _get_object self db object_id workspace_name s
     = (s, Raise MultipleResultsFound)).
Proof.
  intros [v Hv] Hq.
  assert (_get_object self db object_id workspace_name s =
          try_except (one (lookup_matches self object_id q)) NoResultFound
            (abort 404 ("Object with id " +:+ DQUOTE +:+ object_id +:+ DQUOTE
                        +:+ " not found")) s) as E.
  { unfold _get_object, _validate_object_id. rewrite Hv.
    unfold bind at 1. simpl. unfold try_except, bind. by rewrite Hq. }
  rewrite E. unfold try_except.
  split; [|split].
  - by intros ->.
  - by intros r ->.
  - destruct (lookup_matches self object_id q) as [|r [|r' rs]];
      simpl; [lia|lia|done].
Qed.

(** Claim C3, amended, at a concrete input: host 10 is found by its id
    in workspace [lab]. *)
Lemma get_object_outcome_witness :
  _get_object lab_hosts (mkDatabase [lab] [host_a]) "10" (Some "lab") tt
  = (tt, Ok host_a).
Proof.
  destruct (get_object_outcome lab_hosts (mkDatabase [lab] [host_a]) "10"
              (Some "lab") [host_a] tt) as (_ & Hone & _).
  - eexists. reflexivity.
  - reflexivity.
  - apply Hone. reflexivity.
Defined.

End ApiFacts.

(* ===================================================================== *)
(** * Severities histogram: further properties *)
(* ===================================================================== *)

Section HistogramLawsFacts.
Import Histogram HistogramSpec HistogramLaws.

Lemma frames_ret {A} today w (a : A) : frames today w (ret a).
Proof. by intros s Hs. Qed.

Lemma frames_raise {A} today w e : frames today w (@raise Store A e).
Proof. by intros s Hs. Qed.

Lemma frames_bind {A B} today w (c : M Store A) (k : A → M Store B) :
  frames today w c → (∀ a, frames today w (k a)) → frames today w (bind c k).
Proof.
  intros Hc Hk s Hs. destruct (Hc s Hs) as [Hwf Ho]. unfold bind.
  destruct (c s) as [s' [a|e]]; simpl in *; [|done].
  destruct (Hk a s' Hwf) as [Hwf' Ho']. split; [done|congruence].
Qed.

Lemma frames_logger today w msg : frames today w (logger_error msg).
Proof. by intros [rs n es] Hs. Qed.

Lemma frames_item0 today w (xs : list pyval) : frames today w (item0 xs).
Proof. destruct xs; [apply frames_raise|apply frames_ret]. Qed.

Lemma frames_local today w name (o : option pyval) :
  frames today w (local name o).
Proof. destruct o; [apply frames_ret|apply frames_raise]. Qed.

Lemma id_determines_row (l : list SeveritiesHistogram) r1 r2 :
  NoDup (map id l) → r1 ∈ l → r2 ∈ l → id r1 = id r2 → r1 = r2.
Proof.
  induction l as [|x l IH]; intros Hnd H1 H2 Heq.
  - by apply not_elem_of_nil in H1.
  - simpl in Hnd. apply NoDup_cons in Hnd as [Hx Hnd].
    apply elem_of_cons in H1 as [->|H1]; apply elem_of_cons in H2 as [->|H2].
    + done.
    + exfalso. apply Hx. rewrite Heq. apply list_elem_of_In, in_map.
      by apply list_elem_of_In.
    + exfalso. apply Hx. rewrite <- Heq. apply list_elem_of_In, in_map.
      by apply list_elem_of_In.
    + by apply IH.
Qed.

Lemma query_first_map today w f tbl :
  (∀ r, id (f r) = id r ∧ day (f r) = day r ∧ workspace_id (f r) = workspace_id r) →
  query_first today w (map f tbl) = query_first today w tbl.
Proof.
  intros Hf. unfold query_first. induction tbl as [|r tbl IH]; [done|].
  simpl map. rewrite !filter_cons. destruct (Hf r) as (Hi & Hd & Hw).
  rewrite Hd, Hw.
  destruct (decide (day r = today ∧ workspace_id r = w)); simpl.
  - by rewrite Hi.
  - apply IH.
Qed.

Lemma frames_create_or_update today w m h c cf :
  frames today w (_create_or_update_histogram today w m h c cf).
Proof.
  destruct w as [w|]; [|apply frames_logger].
  intros s (Hid & Hlt & Hkey). rewrite create_or_update_Some. simpl.
  destruct (query_first today w (rows s)) as [i|] eqn:Hq.
  - apply query_first_Some in Hq as (r0 & Hin0 & Hd0 & Hw0 & Hi0).
    set (f := λ r, if bool_decide (id r = i) then add_deltas m h c cf r else r).
    assert (∀ r, id (f r) = id r ∧ key (f r) = key r) as Hf.
    { intros r. unfold f. by case_bool_decide. }
    split.
    + unfold well_formed. simpl. rewrite !map_map.
      rewrite (map_ext (λ x, id (f x)) id) by (intros; apply Hf).
      rewrite (map_ext (λ x, key (f x)) key) by (intros; apply Hf).
      split; [done|]. split; [|done].
      intros r Hr. apply list_elem_of_In, in_map_iff in Hr as (r' & <- & Hr').
      destruct (Hf r') as [-> _]. apply Hlt. by apply list_elem_of_In.
    + unfold others. simpl.
      assert (∀ l, (∀ r, r ∈ l → r ∈ rows s) →
        filter (λ r, ¬ (day r = today ∧ Some (workspace_id r) = Some w)) (map f l)
        = filter (λ r, ¬ (day r = today ∧ Some (workspace_id r) = Some w)) l)
        as Hfl.
      { induction l as [|r l IH]; intros Hsub; [done|].
        simpl map. rewrite !filter_cons.
        assert (r ∈ rows s) as Hr by (apply Hsub; left).
        rewrite IH by (intros; apply Hsub; by right).
        destruct (Hf r) as [_ Hk]. unfold key in Hk.
        injection Hk as Hkw Hkd. rewrite Hkw, Hkd.
        destruct (decide (¬ (day r = today ∧ Some (workspace_id r) = Some w)))
          as [Hn|Hy]; [|done].
        f_equal. unfold f. case_bool_decide as Hi; [|done].
        exfalso. apply Hn.
        assert (r = r0) as -> by (apply (id_determines_row (rows s)); congruence).
        split; congruence. }
      by apply Hfl.
  - apply query_first_None in Hq. split.
    + unfold well_formed. simpl. rewrite !map_app. simpl. split; [|split].
      * apply NoDup_app. split; [done|]. split; [|apply NoDup_singleton].
        intros x Hx Hx'. apply list_elem_of_singleton in Hx'. subst x.
        apply list_elem_of_In, in_map_iff in Hx as (r & Hr & Hin).
        apply list_elem_of_In, Hlt in Hin. lia.
      * intros r Hr. apply elem_of_app in Hr as [Hr|Hr].
        -- apply Hlt in Hr. lia.
        -- apply list_elem_of_singleton in Hr. subst r. simpl. lia.
      * apply NoDup_app. split; [done|]. split; [|apply NoDup_singleton].
        intros x Hx Hx'. apply list_elem_of_singleton in Hx'. subst x.
        apply list_elem_of_In, in_map_iff in Hx as (r & Hr & Hin).
        apply Hq. exists r. apply list_elem_of_In in Hin.
        unfold key in Hr. simpl in Hr. injection Hr as ? ?. done.
    + unfold others. simpl. rewrite filter_app, filter_cons. simpl.
      destruct (decide (¬ (today = today ∧ Some w = Some w))) as [Hn|_].
      * exfalso. by apply Hn.
      * by rewrite filter_nil, app_nil_r.
Qed.

Ltac frames_step :=
  match goal with
  | |- frames _ _ (ret _) => apply frames_ret
  | |- frames _ _ (raise _) => apply frames_raise
  | |- frames _ _ (logger_error _) => apply frames_logger
  | |- frames _ _ (_create_or_update_histogram _ _ _ _ _ _) =>
      apply frames_create_or_update
  | |- frames _ _ (item0 _) => apply frames_item0
  | |- frames _ _ (local _ _) => apply frames_local
  | |- frames _ _ (bind _ _) => apply frames_bind; [|intros ?]
  | |- frames _ _ (and_then _ _) => unfold and_then
  | |- context [if ?b then _ else _] => destruct b
  | |- context [let '(_, _) := ?p in _] => destruct p
  end.

Lemma frames_update_general today w sh ch vh :
  frames today w (alter_histogram_on_update_general today w sh ch vh).
Proof.
  unfold alter_histogram_on_update_general.
  destruct sh as [sh|], ch as [ch|], vh as [vh|]; try apply frames_logger.
  unfold update_general_tail. repeat frames_step.
Qed.

Lemma frames_insert today instance :
  frames today (v_workspace_id instance) (alter_histogram_on_insert today instance).
Proof. unfold alter_histogram_on_insert. repeat frames_step. Qed.

Lemma frames_delete today instance :
  frames today (v_workspace_id instance) (alter_histogram_on_delete today instance).
Proof. unfold alter_histogram_on_delete. repeat frames_step. Qed.

Lemma frames_keeps {A} today w (c : M Store A) : frames today w c → keeps c.
Proof. intros H s Hs. by destruct (H s Hs). Qed.

Lemma keeps_bind {A B} (c : M Store A) (k : A → M Store B) :
  keeps c → (∀ a, keeps (k a)) → keeps (bind c k).
Proof.
  intros Hc Hk s Hs. specialize (Hc s Hs). unfold bind.
  destruct (c s) as [s' [a|e]]; simpl in *; [|done]. by apply Hk.
Qed.

Lemma keeps_for_each {A} (xs : list A) (body : A → M Store unit) :
  (∀ x, keeps (body x)) → keeps (for_each xs body).
Proof.
  intros H. induction xs as [|x xs IH]; [by intros s Hs|].
  simpl. apply keeps_bind; auto.
Qed.

Lemma keeps_bulk_delete today tbl query :
  keeps (alter_histogram_on_before_compile_delete today tbl query).
Proof.
  unfold alter_histogram_on_before_compile_delete.
  apply keeps_for_each. intros d. destruct (is_vuln_type d); [|by intros s Hs].
  apply keeps_for_each. intros v. apply (frames_keeps today (v_workspace_id v)).
  unfold delete_row. repeat frames_step.
Qed.

Lemma keeps_bulk_update today tbl query values :
  keeps (alter_histogram_on_before_compile_update today tbl query values).
Proof.
  unfold alter_histogram_on_before_compile_update.
  apply keeps_for_each. intros d. destruct (is_vuln_type d); [|by intros s Hs].
  apply keeps_for_each. intros v. apply (frames_keeps today (v_workspace_id v)).
  apply frames_update_general.
Qed.

Lemma update_general_counters today w sh ch vh cc cl ro s :
  confirmed_counters ch = Some (cc, cl, ro) →
  alter_histogram_on_update_general today w (Some sh) (Some ch) (Some vh) s =
  update_general_tail today w sh vh cc cl ro s.
Proof.
  unfold confirmed_counters, alter_histogram_on_update_general.
  destruct ch as [ca cu cd]; simpl. destruct cu as [|u cu].
  - destruct cd as [|d cd]; [done|]. destruct ca as [|a ca]; [done|].
    simpl. unfold bind at 1. simpl. destruct (is_True d); intros; by simplify_eq.
  - rewrite nonempty_length. unfold bind at 1. simpl. intros; by simplify_eq.
Qed.

Lemma tracked_cases sev :
  sev ∈ SEVERITIES_ALLOWED →
  sev = SEVERITY_MEDIUM ∨ sev = SEVERITY_HIGH ∨ sev = SEVERITY_CRITICAL.
Proof.
  intros H. apply elem_of_cons in H as [->|H]; [auto|].
  apply elem_of_cons in H as [->|H]; [auto|].
  apply elem_of_cons in H as [->|H]; [auto|].
  by apply not_elem_of_nil in H.
Qed.

Lemma untracked_cases sev :
  sev ∉ SEVERITIES_ALLOWED →
  sev ≠ SEVERITY_MEDIUM ∧ sev ≠ SEVERITY_HIGH ∧ sev ≠ SEVERITY_CRITICAL.
Proof.
  intros H. repeat split; intros ->; apply H;
    apply (bool_decide_unpack _); vm_compute; exact I.
Qed.

Lemma reopen_write today w s sh ch vh sev cc cl ro :
  reopens sh → confirmed_counters ch = Some (cc, cl, ro) →
  severity_after vh = Some sev →
  alter_histogram_on_update_general today w (Some sh) (Some ch) (Some vh) s =
  if py_in sev SEVERITIES_ALLOWED
  then let '(m, h, c) := severity_delta sev 1 in
       _create_or_update_histogram today w m h c ro s
  else (s, Ok tt).
Proof.
  intros (Hu & a & d & Ha & Hd & Hao & Hdc) Hc Hsev.
  rewrite (update_general_counters _ _ _ _ _ _ _ _ _ Hc).
  unfold update_general_tail.
  destruct sh as [sa su sd]; simpl in *. subst su.
  destruct sa as [|a' sa]; [done|]. destruct sd as [|d' sd]; [done|].
  simpl in Ha, Hd. simplify_eq.
  unfold and_then, bind, item0, ret.
  assert (py_in a CLOSED_STATES = false) as Hnc.
  { apply py_in_false. intros Hin.
    apply elem_of_cons in Hao as [->|Hao];
      [|apply list_elem_of_singleton in Hao as ->];
      apply (bool_decide_pack _) in Hin; vm_compute in Hin; done. }
  rewrite Hnc, (py_in_true _ _ Hao), (py_in_true _ _ Hdc).
  unfold severity_after in Hsev.
  destruct vh as [va vu vd]; simpl in *.
  destruct va as [|a0 va].
  - destruct vu as [|u0 vu]; [done|]. simpl in Hsev. simplify_eq.
    rewrite (nonempty_length sev vu). simpl.
    by destruct (py_in sev SEVERITIES_ALLOWED).
  - simplify_eq. rewrite (nonempty_length sev va). simpl.
    by destruct (py_in sev SEVERITIES_ALLOWED).
Qed.

Lemma close_write today w s sh ch vh sev cc cl ro :
  closes sh → confirmed_counters ch = Some (cc, cl, ro) →
  severity_before vh = Some sev →
  alter_histogram_on_update_general today w (Some sh) (Some ch) (Some vh) s =
  if py_in sev SEVERITIES_ALLOWED
  then let '(m, h, c) := severity_delta sev (-1) in
       _create_or_update_histogram today w m h c cl s
  else (s, Ok tt).
Proof.
  intros (Hu & a & d & Ha & Hd & Hac & Hdo) Hc Hsev.
  rewrite (update_general_counters _ _ _ _ _ _ _ _ _ Hc).
  unfold update_general_tail.
  destruct sh as [sa su sd]; simpl in *. subst su.
  destruct sa as [|a' sa]; [done|]. destruct sd as [|d' sd]; [done|].
  simpl in Ha, Hd. simplify_eq.
  unfold and_then, bind, item0, ret.
  rewrite (py_in_true _ _ Hac), (py_in_true _ _ Hdo).
  unfold severity_before in Hsev.
  destruct vh as [va vu vd]; simpl in *.
  destruct vd as [|d0 vd].
  - destruct vu as [|u0 vu]; [done|]. simpl in Hsev. simplify_eq.
    rewrite (nonempty_length sev vu). simpl.
    by destruct (py_in sev SEVERITIES_ALLOWED).
  - simplify_eq. rewrite (nonempty_length sev vd). simpl.
    by destruct (py_in sev SEVERITIES_ALLOWED).
Qed.

Lemma severity_move_write today w s sh vh u d a cc cl ro :
  head (unchanged sh) = Some u → severity_moves vh d a →
  update_general_tail today w sh vh cc cl ro s =
  let '(m, h, c) := moved d a in
  _create_or_update_histogram today w m h c cc s.
Proof.
  intros Hu (Hvu & Hd & Ha). unfold update_general_tail.
  destruct sh as [sa su sd], vh as [va vu vd]; simpl in *. subst vu.
  destruct su as [|u' su]; [done|]. destruct vd as [|d' vd]; [done|].
  destruct va as [|a' va]; [done|]. simpl in *. simplify_eq.
  unfold bind, item0, ret. simpl.
  destruct (decide (d ∈ SEVERITIES_ALLOWED)) as [Hd|Hd];
    destruct (decide (a ∈ SEVERITIES_ALLOWED)) as [Ha|Ha];
    rewrite ?(py_in_true _ _ Hd), ?(py_in_false _ _ Hd),
            ?(py_in_true _ _ Ha), ?(py_in_false _ _ Ha);
    try apply tracked_cases in Hd; try apply tracked_cases in Ha;
    try apply untracked_cases in Hd; try apply untracked_cases in Ha;
    unfold moved, _dicrease_severities_histogram,
      _increase_severities_histogram;
    destruct_and?; destruct_or?; subst;
    repeat case_bool_decide; simplify_eq; done.
Qed.

Lemma quiet_tail today w s sh vh u cc cl ro :
  head (unchanged sh) = Some u → unchanged vh ≠ [] →
  update_general_tail today w sh vh cc cl ro s =
  if negb (cc =? 0) && py_in u OPEN_STATES
  then _create_or_update_histogram today w 0 0 0 cc s
  else (s, Ok tt).
Proof.
  intros Hu Hv. unfold update_general_tail.
  destruct sh as [sa su sd], vh as [va vu vd]; simpl in *.
  destruct su as [|u' su]; [done|]. destruct vu as [|v' vu]; [done|].
  simpl in Hu. simplify_eq. rewrite !nonempty_length.
  unfold and_then, bind, ret, item0. simpl.
  destruct (cc =? 0); simpl; [done|]. by destruct (py_in u OPEN_STATES).
Qed.

Lemma history_unchanged values f cur :
  values !! f = None ∨ values !! f = Some cur →
  get_history_from_context_values values f cur = mkHistory [] [cur] [].
Proof.
  unfold get_history_from_context_values. intros [-> | ->]; [done|].
  by rewrite bool_decide_eq_false_2 by (intros H; by apply H).
Qed.

Lemma update_row_leaves today values v s :
  leaves_row values v → update_row today values v s = (s, Ok tt).
Proof.
  intros (Hs & Hv & Hc). unfold update_row.
  rewrite (history_unchanged _ _ _ Hs), (history_unchanged _ _ _ Hv),
    (history_unchanged _ _ _ Hc).
  rewrite (update_general_counters _ _ _ _ _ 0
             (if is_True (v_confirmed v) then -1 else 0)
             (if is_True (v_confirmed v) then 1 else 0)) by done.
  by rewrite (quiet_tail _ _ _ _ _ (v_status v)).
Qed.

Lemma for_each_ext {S A} (xs : list A) (f g : A → M S unit) s :
  (∀ x s, f x s = g x s) → for_each xs f s = for_each xs g s.
Proof.
  intros H. revert s. induction xs as [|x xs IH]; intros s; [done|].
  simpl. unfold bind. rewrite H. destruct (g x s) as [s' [[]|e]]; [apply IH|done].
Qed.

Lemma delete_row_is_hook today v s :
  delete_row today v s = alter_histogram_on_delete today v s.
Proof. reflexivity. Qed.

Lemma add_deltas_undo m h c cf r :
  add_deltas (- m) (- h) (- c) (- cf) (add_deltas m h c cf r) = r.
Proof. destruct r. unfold add_deltas. simpl. f_equal; lia. Qed.

Lemma write_then_undo today w m h c cf s :
  has_row today w (rows s) →
  (_create_or_update_histogram today (Some w) m h c cf ;;;
   _create_or_update_histogram today (Some w) (- m) (- h) (- c) (- cf)) s
  = (s, Ok tt).
Proof.
  intros Hrow. unfold bind. rewrite create_or_update_Some.
  destruct (query_first today w (rows s)) as [i|] eqn:Hq;
    [|by apply query_first_None in Hq].
  rewrite create_or_update_Some. simpl rows.
  rewrite query_first_map, Hq by (intros r; by case_bool_decide).
  destruct s as [rs n es]. simpl. f_equal. f_equal.
  rewrite map_map. rewrite <- (map_id rs) at 2. apply map_ext. intros r.
  destruct (decide (id r = i)) as [Hi|Hi].
  - rewrite (bool_decide_eq_true_2 (id r = i)) by done.
    rewrite bool_decide_eq_true_2 by done. apply add_deltas_undo.
  - rewrite (bool_decide_eq_false_2 (id r = i)) by done.
    by rewrite bool_decide_eq_false_2.
Qed.

Lemma write_then_undo_fresh today w m h c cf s :
  well_formed s → ¬ has_row today w (rows s) →
  (_create_or_update_histogram today (Some w) m h c cf ;;;
   _create_or_update_histogram today (Some w) (- m) (- h) (- c) (- cf)) s
  = (mkStore (rows s ++ [mkRow (next_id s) w today 0 0 0 0])
             (next_id s + 1) (errors s), Ok tt).
Proof.
  intros (_ & Hlt & _) Hrow. unfold bind. rewrite create_or_update_Some.
  apply query_first_None in Hrow as Hq. rewrite Hq.
  rewrite create_or_update_Some. simpl rows.
  assert (query_first today w (rows s ++ [mkRow (next_id s) w today m h c cf])
          = Some (next_id s)) as ->.
  { unfold query_first. rewrite filter_app.
    unfold query_first in Hq. apply fmap_None, head_None in Hq. rewrite Hq.
    simpl. rewrite filter_cons. simpl. by rewrite decide_True. }
  simpl. f_equal. f_equal. rewrite map_app. simpl.
  rewrite bool_decide_eq_true_2 by done. f_equal.
  - rewrite <- (map_id (rows s)) at 2. apply map_ext_in. intros r Hr.
    case_bool_decide as Hi; [|done]. exfalso.
    apply list_elem_of_In, Hlt in Hr. lia.
  - unfold add_deltas. simpl. f_equal. f_equal; lia.
Qed.

Lemma bind_ext {S A B} (c c' : M S A) (k k' : A → M S B) s :
  (∀ s, c s = c' s) → (∀ a s, k a s = k' a s) → bind c k s = bind c' k' s.
Proof.
  intros Hc Hk. unfold bind. rewrite Hc.
  destruct (c' s) as [s' [a|e]]; [apply Hk|done].
Qed.

Lemma severity_delta_opp sev :
  severity_delta sev 1 =
  let '(m, h, c) := severity_delta sev (-1) in (- m, - h, - c).
Proof. unfold severity_delta. by repeat case_bool_decide. Qed.

Lemma others_without_workspace today s : others today None s = rows s.
Proof.
  unfold others. induction (rows s) as [|r l IH]; [done|].
  rewrite filter_cons, decide_True by (by intros [_ ?]). by rewrite IH.
Qed.

(** Extra X1. When the status goes from closed or risk-accepted to open
    or re-opened, the update is one aggregate write that adds 1 to the
    counter of the severity the row has after the update - the added
    value if the severity changed too, else the unchanged one - together
    with the re-open confirmed delta; if that severity is not tracked
    nothing is written at all, the confirmed delta included. *)
Theorem reopen_transition today w s sh ch vh sev cc cl ro :
  reopens sh → confirmed_counters ch = Some (cc, cl, ro) →
  severity_after vh = Some sev →
  alter_histogram_on_update_general today w (Some sh) (Some ch) (Some vh) s =
  if py_in sev SEVERITIES_ALLOWED
  then let '(m, h, c) := severity_delta sev 1 in
       _create_or_update_histogram today w m h c ro s
  else (s, Ok tt).
Proof. apply reopen_write. Qed.

(** Extra X1 at a concrete input: re-opening a closed, unconfirmed,
    medium vulnerability adds 1 to [medium] and leaves [confirmed]. *)
Lemma reopen_transition_witness :
  alter_histogram_on_update_general 0 (Some 2) (Some reopening)
    (Some never_confirmed) (Some stays_medium) two_workspaces
  = (mkStore [mkRow 1 1 0 0 1 0 1; mkRow 2 2 0 5 0 0 0] 3 [], Ok tt).
Proof.
  assert (reopens reopening) as Hr.
  { split; [reflexivity|]. exists STATUS_RE_OPENED, STATUS_CLOSED.
    repeat split; apply (bool_decide_unpack _); vm_compute; exact I. }
  rewrite (reopen_transition 0 (Some 2) two_workspaces reopening
             never_confirmed stays_medium SEVERITY_MEDIUM 0 0 0
             Hr eq_refl eq_refl).
  reflexivity.
Defined.

(** Extra X2. When the status goes from open or re-opened to closed or
    risk-accepted and the severity the row had before the update is not
    tracked, nothing is written and nothing is logged: the confirmed
    counter keeps the vulnerability even if it was confirmed. *)
Theorem close_untracked_writes_nothing today w s sh ch vh sev cc cl ro :
  closes sh → confirmed_counters ch = Some (cc, cl, ro) →
  severity_before vh = Some sev → sev ∉ SEVERITIES_ALLOWED →
  alter_histogram_on_update_general today w (Some sh) (Some ch) (Some vh) s
  = (s, Ok tt).
Proof.
  intros Hc Hcc Hs Hn.
  rewrite (close_write _ _ _ _ _ _ _ _ _ _ Hc Hcc Hs).
  by rewrite (py_in_false _ _ Hn).
Qed.

Lemma close_untracked_writes_nothing_witness :
  alter_histogram_on_update_general 0 (Some 1) (Some closing)
    (Some still_confirmed) (Some (mkHistory [] [PStr "low"] []))
    store_critical
  = (store_critical, Ok tt).
Proof.
  assert (closes closing) as Hc.
  { split; [reflexivity|]. exists STATUS_CLOSED, STATUS_OPEN.
    repeat split; apply (bool_decide_unpack _); vm_compute; exact I. }
  apply (close_untracked_writes_nothing 0 (Some 1) store_critical closing
           still_confirmed (mkHistory [] [PStr "low"] []) (PStr "low")
           0 (-1) 1 Hc eq_refl eq_refl).
  intros Hin. apply (bool_decide_pack _) in Hin. vm_compute in Hin. exact Hin.
Defined.

(** Extra X3. When the status did not change and the severity did, the
    update is one aggregate write that moves one unit from the counter
    of the old severity to the counter of the new one, as far as they
    are tracked, together with the plain confirmed delta - whatever the
    status is, closed and risk-accepted included. *)
Theorem severity_change_moves_one_unit today w s sh ch vh u d a cc cl ro :
  head (unchanged sh) = Some u → confirmed_counters ch = Some (cc, cl, ro) →
  severity_moves vh d a →
  alter_histogram_on_update_general today w (Some sh) (Some ch) (Some vh) s =
  let '(m, h, c) := moved d a in
  _create_or_update_histogram today w m h c cc s.
Proof.
  intros Hu Hc Hm. rewrite (update_general_counters _ _ _ _ _ _ _ _ _ Hc).
  by apply (severity_move_write _ _ _ _ _ u).
Qed.

(** Extra X3 at a concrete input: a closed vulnerability going from
    high to medium still moves one unit from [high] to [medium]. *)
Lemma severity_change_moves_one_unit_witness :
  alter_histogram_on_update_general 0 (Some 1) (Some stays_closed)
    (Some still_confirmed) (Some high_to_medium) store_3_3
  = (mkStore [mkRow 7 1 0 4 2 0 1] 8 [], Ok tt).
Proof.
  rewrite (severity_change_moves_one_unit 0 (Some 1) store_3_3 stays_closed
             still_confirmed high_to_medium STATUS_CLOSED SEVERITY_HIGH
             SEVERITY_MEDIUM 0 (-1) 1 eq_refl eq_refl).
  - reflexivity.
  - repeat split.
Defined.

(** Extra X4. When neither the status nor the severity changed, the
    only thing an update can write is the plain confirmed delta, and
    only for a change of [confirmed] on a vulnerability that is open or
    re-opened; otherwise the store is left as it was and nothing is
    logged. *)
Theorem quiet_update today w s sh ch vh u cc cl ro :
  head (unchanged sh) = Some u → confirmed_counters ch = Some (cc, cl, ro) →
  unchanged vh ≠ [] →
  alter_histogram_on_update_general today w (Some sh) (Some ch) (Some vh) s =
  if negb (cc =? 0) && py_in u OPEN_STATES
  then _create_or_update_histogram today w 0 0 0 cc s
  else (s, Ok tt).
Proof.
  intros Hu Hc Hv. rewrite (update_general_counters _ _ _ _ _ _ _ _ _ Hc).
  by apply quiet_tail.
Qed.

(** Extra X4 at a concrete input: confirming an open vulnerability adds
    1 to [confirmed] and to nothing else. *)
Lemma quiet_update_witness :
  alter_histogram_on_update_general 0 (Some 1) (Some stays_open)
    (Some now_confirmed) (Some stays_critical) store_critical
  = (mkStore [mkRow 1 1 0 0 0 1 2] 2 [], Ok tt).
Proof.
  rewrite (quiet_update 0 (Some 1) store_critical stays_open now_confirmed
             stays_critical STATUS_OPEN 1 0 1 eq_refl eq_refl).
  - reflexivity.
  - discriminate.
Defined.

(** Extra X5. Every entry point of the histogram maintenance keeps the
    store well formed: surrogate keys stay distinct and below the
    sequence, and no workspace gets a second row for a day. This holds
    for the insert, update and delete hooks and for both bulk hooks,
    on any history and also when the update raises. *)
Theorem hooks_keep_store_well_formed today s :
  well_formed s →
  (∀ v, well_formed (alter_histogram_on_insert today v s).1) ∧
  (∀ w sh ch vh,
     well_formed (alter_histogram_on_update_general today w sh ch vh s).1) ∧
  (∀ v, well_formed (alter_histogram_on_delete today v s).1) ∧
  (∀ tbl q,
     well_formed (alter_histogram_on_before_compile_delete today tbl q s).1) ∧
  (∀ tbl q values,
     well_formed
       (alter_histogram_on_before_compile_update today tbl q values s).1).
Proof.
  intros Hs. split; [|split; [|split; [|split]]].
  - intros v. by apply (frames_insert today v).
  - intros w sh ch vh. by apply (frames_update_general today w sh ch vh).
  - intros v. by apply (frames_delete today v).
  - intros tbl q. by apply keeps_bulk_delete.
  - intros tbl q values. by apply keeps_bulk_update.
Qed.

Lemma two_workspaces_well_formed : well_formed two_workspaces.
Proof.
  repeat split.
  - apply (bool_decide_unpack _). vm_compute. exact I.
  - intros r Hr. apply elem_of_cons in Hr as [->|Hr]; [simpl; lia|].
    apply list_elem_of_singleton in Hr as ->. simpl. lia.
  - apply (bool_decide_unpack _). vm_compute. exact I.
Qed.

(** Extra X5 at a concrete input: a new day in workspace 1 of a store
    with two workspaces. *)
Lemma hooks_keep_store_well_formed_witness :
  well_formed (alter_histogram_on_insert 1 new_high two_workspaces).1.
Proof.
  destruct (hooks_keep_store_well_formed 1 two_workspaces
              two_workspaces_well_formed) as [Hins _].
  apply Hins.
Defined.

(** Extra X6. On a well-formed store the insert, update and delete
    hooks change no row of another day or of another workspace than the
    one they are called for; with no workspace they change no row at
    all. *)
Theorem hooks_touch_one_day_of_one_workspace today s :
  well_formed s →
  (∀ v, others today (v_workspace_id v) (alter_histogram_on_insert today v s).1
        = others today (v_workspace_id v) s) ∧
  (∀ w sh ch vh,
     others today w (alter_histogram_on_update_general today w sh ch vh s).1
     = others today w s) ∧
  (∀ v, others today (v_workspace_id v) (alter_histogram_on_delete today v s).1
        = others today (v_workspace_id v) s) ∧
  (∀ sh ch vh,
     rows (alter_histogram_on_update_general today None sh ch vh s).1 = rows s).
Proof.
  intros Hs. split; [|split; [|split]].
  - intros v. by apply (frames_insert today v).
  - intros w sh ch vh. by apply (frames_update_general today w sh ch vh).
  - intros v. by apply (frames_delete today v).
  - intros sh ch vh. rewrite <- !(others_without_workspace today).
    by apply (frames_update_general today None sh ch vh).
Qed.

(** Extra X6 at a concrete input: closing a vulnerability of workspace
    1 leaves the row of workspace 2 as it was. *)
Lemma hooks_touch_one_day_of_one_workspace_witness :
  others 0 (Some 1)
    (alter_histogram_on_update_general 0 (Some 1) (Some closing)
       (Some still_confirmed) (Some (mkHistory [] [SEVERITY_HIGH] []))
       two_workspaces).1
  = [mkRow 2 2 0 4 0 0 0].
Proof.
  destruct (hooks_touch_one_day_of_one_workspace 0 two_workspaces
              two_workspaces_well_formed) as (_ & Hupd & _).
  rewrite Hupd. reflexivity.
Defined.

(** Extra X7. Closing a vulnerability of tracked severity and
    re-opening it, severity and confirmed flag unchanged, on a day that
    has a row for the workspace, leaves the store exactly as it was. *)
Theorem close_then_reopen_restores today w s sh sh' ch vh c sev :
  has_row today w (rows s) →
  closes sh → reopens sh' → head (unchanged ch) = Some c →
  severity_before vh = Some sev → severity_after vh = Some sev →
  sev ∈ SEVERITIES_ALLOWED →
  (alter_histogram_on_update_general today (Some w)
     (Some sh) (Some ch) (Some vh) ;;;
   alter_histogram_on_update_general today (Some w)
     (Some sh') (Some ch) (Some vh)) s
  = (s, Ok tt).
Proof.
  intros Hrow Hc Hr Hch Hb Ha Htr.
  assert (confirmed_counters ch =
          Some (0, if is_True c then -1 else 0, if is_True c then 1 else 0))
    as Hcc.
  { unfold confirmed_counters.
    destruct (unchanged ch) as [|u us]; simpl in Hch; [done|].
    by simplify_eq. }
  destruct (severity_delta sev (-1)) as [[m h] k] eqn:Hd.
  rewrite <- (write_then_undo today w m h k (if is_True c then -1 else 0) s Hrow).
  apply bind_ext.
  - intros s0. rewrite (close_write _ _ _ _ _ _ _ _ _ _ Hc Hcc Hb).
    by rewrite (py_in_true _ _ Htr), Hd.
  - intros _ s0. rewrite (reopen_write _ _ _ _ _ _ _ _ _ _ Hr Hcc Ha).
    rewrite (py_in_true _ _ Htr), severity_delta_opp, Hd.
    by destruct (is_True c).
Qed.

(** Extra X7 at a concrete input: the critical, confirmed vulnerability
    of workspace 1 is closed and re-opened. *)
Lemma close_then_reopen_restores_witness :
  (alter_histogram_on_update_general 0 (Some 1)
     (Some closing) (Some still_confirmed) (Some stays_critical) ;;;
   alter_histogram_on_update_general 0 (Some 1)
     (Some (mkHistory [STATUS_OPEN] [] [STATUS_CLOSED]))
     (Some still_confirmed) (Some stays_critical)) store_critical
  = (store_critical, Ok tt).
Proof.
  apply (close_then_reopen_restores 0 1 store_critical closing
           (mkHistory [STATUS_OPEN] [] [STATUS_CLOSED]) still_confirmed
           stays_critical (PBool true) SEVERITY_CRITICAL).
  - exists (mkRow 1 1 0 0 0 1 1). repeat split. left.
  - split; [reflexivity|]. exists STATUS_CLOSED, STATUS_OPEN.
    repeat split; apply (bool_decide_unpack _); vm_compute; exact I.
  - split; [reflexivity|]. exists STATUS_OPEN, STATUS_CLOSED.
    repeat split; apply (bool_decide_unpack _); vm_compute; exact I.
  - reflexivity.
  - reflexivity.
  - reflexivity.
  - apply (bool_decide_unpack _). vm_compute. exact I.
Defined.

(** Extra X8. Inserting a vulnerability of tracked severity and then
    deleting it: if it is open or re-opened and the day has a row for
    the workspace, the store is exactly as before; on a day without a
    row the pair leaves a row of zeros behind; if the vulnerability is
    in any other status the delete hook undoes nothing, so the unit the
    insert hook added stays in the histogram. *)
Theorem insert_then_delete today w s v :
  v_workspace_id v = Some w →
  v_severity v ∈ SEVERITIES_ALLOWED →
  truthy (v_confirmed v) = is_True (v_confirmed v) →
  (v_status v ∈ OPEN_STATES → has_row today w (rows s) →
     (alter_histogram_on_insert today v ;;;
      alter_histogram_on_delete today v) s = (s, Ok tt)) ∧
  (v_status v ∈ OPEN_STATES → well_formed s → ¬ has_row today w (rows s) →
     (alter_histogram_on_insert today v ;;;
      alter_histogram_on_delete today v) s
     = (mkStore (rows s ++ [mkRow (next_id s) w today 0 0 0 0])
                (next_id s + 1) (errors s), Ok tt)) ∧
  (v_status v ∉ OPEN_STATES →
     (alter_histogram_on_insert today v ;;;
      alter_histogram_on_delete today v) s
     = alter_histogram_on_insert today v s).
Proof.
  intros Hw Htr Hcf.
  destruct (severity_delta (v_severity v) (-1)) as [[m h] k] eqn:Hd.
  assert (v_status v ∈ OPEN_STATES → ∀ s0,
    (alter_histogram_on_insert today v ;;;
     alter_histogram_on_delete today v) s0 =
    (_create_or_update_histogram today (Some w) (- m) (- h) (- k)
       (if is_True (v_confirmed v) then 1 else 0) ;;;
     _create_or_update_histogram today (Some w) (- - m) (- - h) (- - k)
       (- (if is_True (v_confirmed v) then 1 else 0))) s0) as Hpair.
  { intros Hopen s0. apply bind_ext.
    - intros s1. unfold alter_histogram_on_insert.
      rewrite (py_in_true _ _ Htr), Hw, Hcf.
      change (_increase_severities_histogram (v_severity v) 0 0 0)
        with (severity_delta (v_severity v) 1).
      by rewrite severity_delta_opp, Hd.
    - intros _ s1. unfold alter_histogram_on_delete.
      rewrite (py_in_true _ _ Hopen), (py_in_true _ _ Htr), Hw.
      change (_dicrease_severities_histogram (v_severity v) 0 0 0)
        with (severity_delta (v_severity v) (-1)).
      rewrite Hd, !Z.opp_involutive. by destruct (is_True (v_confirmed v)). }
  split; [|split].
  - intros Hopen Hrow. rewrite (Hpair Hopen). by apply write_then_undo.
  - intros Hopen Hwf Hrow. rewrite (Hpair Hopen).
    by apply write_then_undo_fresh.
  - intros Hclosed. unfold bind.
    destruct (alter_histogram_on_insert today v s) as [s' [[]|e]]; [|done].
    unfold alter_histogram_on_delete. by rewrite (py_in_false _ _ Hclosed).
Qed.

(** Extra X8 at a concrete input: a closed high vulnerability is
    inserted and deleted, and [high] of workspace 1 stays at 2. *)
Lemma insert_then_delete_witness :
  (alter_histogram_on_insert 0 closed_high ;;;
   alter_histogram_on_delete 0 closed_high) two_workspaces
  = (mkStore [mkRow 1 1 0 0 2 0 1; mkRow 2 2 0 4 0 0 0] 3 [], Ok tt).
Proof.
  destruct (insert_then_delete 0 1 two_workspaces closed_high eq_refl)
    as (_ & _ & Hclosed).
  - apply (bool_decide_unpack _). vm_compute. exact I.
  - reflexivity.
  - rewrite Hclosed; [reflexivity|].
    intros Hin. apply (bool_decide_pack _) in Hin. vm_compute in Hin.
    exact Hin.
Defined.

(** Extra X9. The bulk delete hook treats every row the query selects
    exactly as the row-level delete hook treats a deleted instance,
    once for each vulnerability column description of the query. *)
Theorem bulk_delete_is_rowwise today tbl query s :
  alter_histogram_on_before_compile_delete today tbl query s =
  for_each (List.filter is_vuln_type (column_descriptions query))
    (fun _ => for_each (query_all query tbl)
                       (alter_histogram_on_delete today)) s.
Proof.
  unfold alter_histogram_on_before_compile_delete.
  rewrite for_each_filter. apply for_each_ext. intros _ s0.
  apply for_each_ext. intros v s1. apply delete_row_is_hook.
Qed.

(** Extra X10. A bulk delete or a bulk update whose query has no
    vulnerability entity among its column descriptions leaves the
    histogram store untouched, whatever its parameters and rows. *)
Theorem bulk_hooks_ignore_other_entities today tbl query values s :
  (∀ d, d ∈ column_descriptions query → is_vuln_type d = false) →
  alter_histogram_on_before_compile_delete today tbl query s = (s, Ok tt) ∧
  alter_histogram_on_before_compile_update today tbl query values s
  = (s, Ok tt).
Proof.
  intros H. split.
  - unfold alter_histogram_on_before_compile_delete.
    apply for_each_skip. intros d Hd. by rewrite (H d Hd).
  - unfold alter_histogram_on_before_compile_update.
    apply for_each_skip. intros d Hd. by rewrite (H d Hd).
Qed.

(** Extra X10 at a concrete input: a bulk update of hosts named by id. *)
Lemma bulk_hooks_ignore_other_entities_witness :
  alter_histogram_on_before_compile_update 0 vulns hosts_query
    {[ "status" := STATUS_CLOSED ]} store_ws5 = (store_ws5, Ok tt).
Proof.
  apply (bulk_hooks_ignore_other_entities 0 vulns hosts_query).
  intros d Hd. apply list_elem_of_singleton in Hd. subst d. reflexivity.
Defined.

(** Extra X11. A bulk update whose target values leave status, severity
    and confirmed of every stored vulnerability as they are - because
    they name none of the three or name the current value - writes
    nothing to the histogram and logs nothing. *)
Theorem bulk_update_of_other_fields today tbl query values s :
  (∀ v, v ∈ tbl → leaves_row values v) →
  alter_histogram_on_before_compile_update today tbl query values s
  = (s, Ok tt).
Proof.
  intros H. unfold alter_histogram_on_before_compile_update.
  apply for_each_skip. intros d _. destruct (is_vuln_type d); [|done].
  apply for_each_skip. intros v Hv. apply update_row_leaves, H.
  destruct (is_nil (id_params (params query))); simpl in Hv;
    apply list_elem_of_In, filter_In in Hv as [Hv _];
    by apply list_elem_of_In.
Qed.

(** Extra X11 at a concrete input: a bulk update that sets a
    description and re-states the severity. *)
Lemma bulk_update_of_other_fields_witness :
  alter_histogram_on_before_compile_update 0 vulns all_vulns
    {[ "description" := PStr "x"; "severity" := SEVERITY_HIGH ]} store_ws5
  = (store_ws5, Ok tt).
Proof.
  apply (bulk_update_of_other_fields 0 vulns all_vulns).
  intros v Hv. apply list_elem_of_singleton in Hv. subst v.
  repeat split; [left|right|left]; reflexivity.
Defined.

(** Extra X12. When the compiled statement of a bulk update carries no
    id parameter, the rows the histogram logic walks are exactly the
    rows the query itself selects, once per vulnerability column
    description. *)
Theorem bulk_update_without_ids today tbl query values s :
  id_params (params query) = [] →
  alter_histogram_on_before_compile_update today tbl query values s =
  for_each (List.filter is_vuln_type (column_descriptions query))
    (fun _ => for_each (query_all query tbl) (update_row today values)) s.
Proof.
  intros Hids. unfold alter_histogram_on_before_compile_update.
  rewrite Hids. simpl negb. cbv iota. apply for_each_filter.
Qed.

(** Extra X12 at a concrete input: closing every vulnerability takes
    the open, confirmed, high one off the histogram. *)
Lemma bulk_update_without_ids_witness :
  alter_histogram_on_before_compile_update 0 vulns all_vulns
    {[ "status" := STATUS_CLOSED ]} store_ws5
  = (mkStore [mkRow 1 5 0 0 0 0 0] 2 [], Ok tt).
Proof.
  rewrite (bulk_update_without_ids 0 vulns all_vulns
             {[ "status" := STATUS_CLOSED ]} store_ws5 eq_refl).
  vm_compute. reflexivity.
Defined.

End HistogramLawsFacts.

(* ===================================================================== *)
(** * Change queue: further properties *)
(* ===================================================================== *)

Section EventsLawsFacts.
Import Events EventsSpec EventsLaws.

Lemma delete_by_elem i t tbl a :
  a ∈ delete_by i t tbl ↔
  a ∈ tbl ∧ ¬ (an_object_id a = i ∧ an_object_type a = t).
Proof.
  unfold delete_by. rewrite !list_elem_of_In, filter_In, negb_true_iff,
    bool_decide_eq_false. tauto.
Qed.

Lemma delete_by_keeps i t tbl :
  delete_by i t tbl =
  filter (λ a, ¬ (an_object_id a = i ∧ an_object_type a = t)) tbl.
Proof.
  unfold delete_by. induction tbl as [|a tbl IH]; [done|].
  simpl. rewrite filter_cons, IH.
  destruct (decide (¬ (an_object_id a = i ∧ an_object_type a = t)))
    as [Hn|Hy].
  - by rewrite bool_decide_eq_false_2.
  - rewrite bool_decide_eq_true_2; [done|].
    destruct (decide (an_object_id a = i ∧ an_object_type a = t)); tauto.
Qed.

(** Extra X13. Deleting a Host or a Service removes from the TagObject,
    Comment and File tables every row attached to its id under its
    lower-cased class name, keeps every other row in its place, and
    puts exactly one DELETE message at the tail of the queue, behind
    the messages that were there; the message carries the id, the class
    name, the workspace name and the [ip], or the [name] of a class
    without [ip]. *)
Theorem delete_cascades_then_notifies instance w :
  ∃ w', delete_object_event instance w = (w', Ok tt) ∧
    (∀ a, a ∈ tag_objects w' ++ comments w' ++ files w' →
          ¬ (an_object_id a = i_id instance
             ∧ an_object_type a = lower (i_class instance))) ∧
    (let kept := λ a, ¬ (an_object_id a = i_id instance
                         ∧ an_object_type a = lower (i_class instance)) in
     tag_objects w' = filter kept (tag_objects w) ∧
     comments w' = filter kept (comments w) ∧
     files w' = filter kept (files w)) ∧
    changes_queue w' =
      changes_queue w ++
      [mkMessage (i_id instance) "DELETE" (i_class instance)
                 (ip_or_name instance) (i_workspace_name instance)].
Proof.
  eexists. split; [reflexivity|]. simpl. split; [|split; [|done]].
  - intros a Ha. rewrite !elem_of_app in Ha.
    destruct Ha as [Ha|[Ha|Ha]]; apply delete_by_elem in Ha; tauto.
  - by rewrite !delete_by_keeps.
Qed.

(** A host with notes is deleted: the notes filed under [host] go, the
    one filed under [service], the one of another host and the one
    filed under the capitalised [Host] stay. *)
Example delete_cascade_example :
  delete_object_event web_server notes
  = (mkWorld [mkAnnotation 2 4 "service"] [mkAnnotation 2 5 "host"]
             [mkAnnotation 1 4 "Host"]
             [mkMessage 4 "DELETE" "Host" (PStr "10.0.0.1") "lab"], Ok tt).
Proof. reflexivity. Qed.

(** A service has no [ip]: its CREATE message carries its [name]. *)
Example new_service_example :
  new_object_event http []
  = ([mkMessage 9 "CREATE" "Service" (PStr "http") "lab"], Ok tt).
Proof. reflexivity. Qed.

(** Extra X14. Whether an update is enqueued depends only on the time
    between creation and update taken modulo one day: moving the update
    by any whole number of days, forwards or backwards, changes
    nothing. *)
Theorem update_suppression_recurs_daily instance k q :
  update_object_event
    (mkAsset (a_id instance) (a_class instance) (a_ip instance)
             (a_name instance) (a_workspace_name instance)
             (create_date instance)
             (update_date instance + k * US_PER_DAY)) q
  = update_object_event instance q.
Proof.
  rewrite !update_object_event_spec. simpl.
  replace (update_date instance + k * US_PER_DAY - create_date instance)
    with (update_date instance - create_date instance + k * US_PER_DAY)
    by lia.
  by rewrite Z.mod_add.
Qed.

(** Extra X15 at a concrete input: forty seconds after creation one
    UPDATE message is enqueued. *)
Lemma update_within_first_day_witness :
  ∃ msg, update_object_event day_two [] = ([msg], Ok tt)
         ∧ msg_action msg = "UPDATE".
Proof.
  apply (update_within_first_day day_two []).
  - split; vm_compute; [intros H; discriminate H | reflexivity].
  - vm_compute. intros H. discriminate H.
Defined.

(** Extra X16. The consistency check listens nowhere else: it is a
    listener of a target and an event only if the event is
    [after_insert] or [after_update] and the target is a class member
    of the models module that declares [workspace_id]. *)
Theorem check_listens_nowhere_else members target event :
  H_check_child_has_same_workspace
    ∈ handlers_for (listeners members) target event →
  (event = "after_insert" ∨ event = "after_update") ∧
  ∃ m, m ∈ members ∧ member_name m = target ∧
       member_isclass m = true ∧ member_workspace_id m = true.
Proof.
  intros H. apply handlers_for_elem in H as (l & Hl & Ht & He & Hf).
  unfold listeners in Hl. apply elem_of_app in Hl as [Hl|Hl].
  - unfold register_workspace_checks in Hl.
    apply list_elem_of_bind in Hl as (m & Hl & Hm).
    destruct (member_isclass m) eqn:Hc; [|by apply not_elem_of_nil in Hl].
    destruct (member_workspace_id m) eqn:Hw;
      [|by apply not_elem_of_nil in Hl].
    simpl in Hl. apply elem_of_cons in Hl as [->|Hl].
    + simpl in *. subst. split; [by left|]. by exists m.
    + apply list_elem_of_singleton in Hl as ->. simpl in *. subst.
      split; [by right|]. by exists m.
  - exfalso. repeat (apply elem_of_cons in Hl as [->|Hl]; [discriminate Hf|]).
    by apply not_elem_of_nil in Hl.
Qed.

(** Extra X16 at a concrete input: on the models [Host] and [db] the
    check does not listen to [after_delete] of [Host]. *)
Lemma check_listens_nowhere_else_witness :
  H_check_child_has_same_workspace
    ∉ handlers_for (listeners models) "Host" "after_delete".
Proof.
  intros H.
  destruct (check_listens_nowhere_else models "Host" "after_delete" H)
    as [[He|He] _]; discriminate He.
Defined.

End EventsLawsFacts.

(* ===================================================================== *)
(** * Generic resource API: further properties *)
(* ===================================================================== *)

Section ApiLawsFacts.
Import Api ApiSpec ApiLaws.

(** The queries of a lookup never touch the world they run in. *)
Lemma get_object_reads_only {S} self db object_id workspace_name (s : S) :
  (_get_object self db object_id workspace_name s).1 = s.
Proof.
  unfold _get_object, _validate_object_id, bind, try_except, abort, raise, ret.
  destruct (lookup_field_type self object_id); simpl; [|done].
  unfold _get_base_query, _get_workspace, try_except, bind, one, abort,
    raise, ret.
  destruct (view_class self), workspace_name as [name|]; simpl; try done.
  - by destruct (lookup_matches self object_id (table db)) as [|r [|r' l]].
  - destruct (List.filter _ (workspaces db)) as [|w [|w' l]]; simpl;
      try done.
    by destruct (lookup_matches self object_id _) as [|r [|r' l]].
Qed.



Lemma validate_fields_pass self db p ws attrs oid sess fields :
  view_class self = GenericWorkspacedView →
  resolves db (ws_name ws) ws →
  (∀ f, f ∈ fields → conflicts self db ws attrs oid f = []) →
  validate_fields self db (mkObj p (Some ws) attrs) ws oid fields sess
  = (sess, Ok tt).
Proof.
  intros Hv Hr. induction fields as [|g fields IH]; intros Hno; [done|].
  simpl validate_fields. unfold bind at 1.
  rewrite (base_query_workspaced _ _ _ _ _ Hv Hr).
  unfold getattr. simpl o_attrs. fold (conflicts self db ws attrs oid g).
  rewrite (Hno g) by left. unfold bind, one_or_none, ret.
  apply IH. intros f Hf. apply Hno. by right.
Qed.

Lemma validate_pass self db p ws attrs oid sess :
  view_class self = GenericWorkspacedView →
  resolves db (ws_name ws) ws →
  no_conflicts self db ws attrs oid →
  _validate_uniqueness self db (mkObj p (Some ws) attrs) oid sess
  = (sess, Ok PNone).
Proof.
  intros Hv Hr Hno. unfold _validate_uniqueness. rewrite Hv.
  cbn [o_workspace]. unfold bind.
  by rewrite (validate_fields_pass _ _ _ _ _ _ _ _ Hv Hr Hno).
Qed.

(** Extra X17. A lookup id that the view's conversion rejects ends
    [_get_object] with 404 "Invalid format of lookup field" before any
    query is made, whatever the database and the workspace name; an
    update or a delete through it fails the same way and leaves the
    session as it was. *)
Theorem malformed_id_is_not_found self db object_id workspace_name data sess :
  lookup_field_type self object_id = None →
  let failure (A : Type) : Session * result A :=
    (sess, Raise (HTTPException 404 "Invalid format of lookup field")) in
  _get_object self db object_id workspace_name sess = failure Row ∧
  put self db object_id data workspace_name sess = failure (Obj * Z)%type ∧
  DeleteMixin_delete self db object_id workspace_name sess
  = failure (pyval * Z)%type.
Proof.
  intros Hid failure.
  assert (_get_object self db object_id workspace_name sess = failure Row)
    as Hget.
  { unfold _get_object, _validate_object_id. by rewrite Hid. }
  split; [done|]. unfold put, DeleteMixin_delete, bind.
  by rewrite Hget.
Qed.

(** Extra X17 at a concrete input: host [abc] of workspace [lab]. *)
Lemma malformed_id_is_not_found_witness :
  DeleteMixin_delete lab_hosts two_sites "abc" (Some "lab") no_session
  = (no_session, Raise (HTTPException 404 "Invalid format of lookup field")).
Proof.
  destruct (malformed_id_is_not_found lab_hosts two_sites "abc" (Some "lab")
              ∅ no_session eq_refl) as (_ & _ & Hdel).
  exact Hdel.
Defined.

(** Extra X18. A workspace-scoped view never hands out a row of another
    workspace: the row [_get_object] returns, and every row [index]
    lists, is a stored row whose [workspace_id] is the id of a
    workspace with the name in the URL; and [index] lists every such
    row of the workspace found, in table order. *)
Theorem workspace_scoping {S} self db name (s s' : S) :
  view_class self = GenericWorkspacedView →
  let inside r :=
    r ∈ table db ∧
    ∃ ws, ws ∈ workspaces db ∧ ws_name ws = name
          ∧ r_workspace_id r = ws_id ws in
  (∀ object_id r,
     _get_object self db object_id (Some name) s = (s', Ok r) → inside r) ∧
  (∀ listed,
     index self db (Some name) s = (s', Ok listed) →
     (∀ r, r ∈ listed → inside r) ∧
     ∃ ws, resolves db name ws ∧ listed = workspace_rows db ws).
Proof.
  intros Hv inside.
  assert (∀ q, _get_base_query self db (Some name) s = (s', Ok q) →
               (∃ ws, resolves db name ws ∧ q = workspace_rows db ws) ∧
               ∀ r, r ∈ q → inside r) as Hbase.
  { intros q. unfold _get_base_query. rewrite Hv.
    unfold bind, _get_workspace, try_except, one, abort, raise, ret.
    destruct (List.filter _ (workspaces db)) as [|ws [|ws' l]] eqn:E;
      simpl; try done.
    intros Hq. simplify_eq. split; [by exists ws|].
    intros r Hr. apply list_elem_of_In, filter_In in Hr as [Hin Hb].
    apply bool_decide_eq_true in Hb. split; [by apply list_elem_of_In|].
    exists ws. rewrite (resolves_name db name ws E).
    split; [|done].
    assert (In ws (List.filter (λ w, bool_decide (ws_name w = name))
                               (workspaces db))) as Hws
      by (rewrite E; by left).
    apply filter_In in Hws as [Hws _]. by apply list_elem_of_In. }
  split.
  - intros object_id r. unfold _get_object, _validate_object_id, bind.
    destruct (lookup_field_type self object_id); simpl; [|done].
    unfold try_except, bind.
    destruct (_get_base_query self db (Some name) s) as [s1 [q|e]] eqn:Eq;
      simpl.
    + assert (s1 = s) as ->.
      { unfold _get_base_query in Eq. rewrite Hv in Eq.
        unfold bind, _get_workspace, try_except, one, abort, raise, ret in Eq.
        destruct (List.filter _ (workspaces db)) as [|? [|? ?]];
          simpl in Eq; by simplify_eq. }
      unfold one, abort, raise, ret.
      destruct (lookup_matches self object_id q) as [|r0 [|r1 l]] eqn:Em;
        simpl; try done.
      intros Hr. simplify_eq.
      assert (r ∈ q) as Hin.
      { assert (In r (lookup_matches self object_id q)) as Hl
          by (rewrite Em; by left).
        apply filter_In in Hl as [Hl _]. by apply list_elem_of_In. }
      destruct (Hbase q) as [_ Hall]; [done|]. by apply Hall.
    + unfold abort, raise. by case_bool_decide.
  - intros listed. unfold index, bind.
    destruct (_get_base_query self db (Some name) s) as [s1 [q|e]] eqn:Eq;
      simpl; [|done].
    unfold ret, _envelope_list, _filter_query. intros Hl. simplify_eq.
    destruct (Hbase listed eq_refl) as [Hex Hall]. done.
Qed.

(** Extra X18 at a concrete input: host 10 looked up in [lab] is a row
    of a workspace named [lab], though [office] has a row with the same
    address. *)
Lemma workspace_scoping_witness :
  host_a ∈ table two_sites ∧
  ∃ ws, ws ∈ workspaces two_sites ∧ ws_name ws = "lab"
        ∧ r_workspace_id host_a = ws_id ws.
Proof.
  destruct (workspace_scoping lab_hosts two_sites "lab" tt tt eq_refl)
    as [Hget _].
  apply (Hget "10" host_a). reflexivity.
Defined.







(** Extra X22. A delete resolves the object first: when the lookup
    fails, with 404 or otherwise, the delete fails the same way and the
    session is left as it was; when it finds a row, that row's object
    is deleted, the session is committed and the answer is an empty
    body with 204. *)
Theorem delete_outcome self db object_id workspace_name sess :
  match (_get_object self db object_id workspace_name sess).2 with
  | Ok r =>
      DeleteMixin_delete self db object_id workspace_name sess
      = (mkSession [] (trace sess ++ [OpDelete (load db r); OpCommit]),
         Ok (PNone, 204))
  | Raise e =>
      DeleteMixin_delete self db object_id workspace_name sess
      = (sess, Raise e)
  end.
Proof.
  pose proof (get_object_reads_only self db object_id workspace_name sess)
    as Hs.
  unfold DeleteMixin_delete, bind.
  destruct (_get_object self db object_id workspace_name sess)
    as [s' [r|e]]; simpl in *; subst s'; [|done].
  unfold _perform_delete, bind, session_delete, session_commit, modify, ret.
  simpl. by rewrite <- app_assoc.
Qed.

(** Extra X23. An update resolves the object first and fails as the
    lookup fails, leaving the session as it was. When the lookup finds
    a row, a [GenericView] adds the object and commits, answering 200
    with an object whose fields are the request's where the request
    names them and the stored row's everywhere else. *)
Theorem put_outcome self db object_id data sess :
  view_class self = GenericView →
  match (_get_object self db object_id None sess).2 with
  | Ok r =>
      let obj := _update_object (load db r) data in
      put self db object_id data None sess
      = (mkSession [] (trace sess ++ [OpAdd obj; OpCommit]), Ok (obj, 200)) ∧
      ∀ f, getattr obj f = match data !! f with
                           | Some v => v
                           | None => column r f
                           end
  | Raise e => put self db object_id data None sess = (sess, Raise e)
  end.
Proof.
  intros Hv.
  pose proof (get_object_reads_only self db object_id None sess) as Hs.
  unfold put, bind.
  destruct (_get_object self db object_id None sess)
    as [s' [r|e]]; simpl in *; subst s'; [|done].
  split.
  - unfold _perform_update, _validate_uniqueness. rewrite Hv.
    unfold bind, session_add, session_commit, modify, ret. simpl.
    by rewrite <- app_assoc.
  - intros f. unfold getattr, column, _update_object, load. simpl.
    rewrite lookup_union. destruct (data !! f), (r_attrs r !! f); done.
Qed.

(** Extra X23 at a concrete input: host 10 gets a description and keeps
    its address. *)
Lemma put_outcome_witness :
  ∃ obj sess', put plain_hosts (mkDatabase [lab] [host_a]) "10"
                   {[ "description" := VStr "router" ]} None no_session
               = (sess', Ok (obj, 200)) ∧
    getattr obj "ip" = VStr "10.0.0.1" ∧
    getattr obj "description" = VStr "router".
Proof.
  pose proof (put_outcome plain_hosts (mkDatabase [lab] [host_a]) "10"
                {[ "description" := VStr "router" ]} no_session eq_refl)
    as H.
  change (_get_object plain_hosts (mkDatabase [lab] [host_a]) "10" None
                      no_session).2 with (@Ok Row host_a) in H.
  destruct H as [Hput Hattr]. eexists _, _. split; [exact Hput|].
  split; rewrite Hattr; reflexivity.
Defined.

(** Extra X24. On a workspace-scoped view, validating an update passes,
    the session untouched, when for every configured unique field the
    only rows of the workspace that carry the object's value are rows
    whose primary key is the id being updated: an object never
    conflicts with its own stored row. *)
Theorem update_does_not_conflict_with_itself
    self db ws attrs object_id p sess :
  view_class self = GenericWorkspacedView →
  resolves db (ws_name ws) ws →
  (∀ f r, f ∈ unique_fields self → r ∈ table db →
          r_workspace_id r = ws_id ws →
          column r f = default VNull (attrs !! f) →
          db_eq (column r (primary_key self)) object_id = true) →
  _validate_uniqueness self db (mkObj p (Some ws) attrs) (Some object_id) sess
  = (sess, Ok PNone).
Proof.
  intros Hv Hr Hown. apply validate_pass; [done|done|].
  intros f Hf.
  destruct (conflicts self db ws attrs (Some object_id) f) as [|r l] eqn:E;
    [done|]. exfalso.
  assert (r ∈ conflicts self db ws attrs (Some object_id) f) as Hin
    by (rewrite E; left).
  apply conflicts_elem in Hin as (Ht & Hw & Hc & Hne).
  rewrite (Hown f r Hf Ht Hw Hc) in Hne. discriminate Hne.
Qed.

(** Extra X24 at a concrete input: host 10 is validated with its own
    address. *)
Lemma update_does_not_conflict_with_itself_witness :
  _validate_uniqueness lab_hosts two_sites (mkObj true (Some lab) same_ip)
                       (Some "10") no_session
  = (no_session, Ok PNone).
Proof.
  apply (update_does_not_conflict_with_itself lab_hosts two_sites lab same_ip
           "10" true no_session eq_refl eq_refl).
  intros f r Hf Hr Hw Hc.
  apply list_elem_of_singleton in Hf. subst f.
  apply elem_of_cons in Hr as [->|Hr]; [reflexivity|].
  apply list_elem_of_singleton in Hr as ->. simpl in Hw. discriminate Hw.
Defined.

(** Extra X25. Pagination is driven by [page_size] alone: without it
    the whole query is returned with no metadata and [page] is not even
    read; with it, an unreadable [page] is a 404 "Invalid page number"
    whatever [page_size] is, an unreadable [page_size] under a readable
    or missing [page] is a 404 "Invalid per_page value", and otherwise
    the page is the one [paginate] cuts, a missing [page] counting as
    1. *)
Theorem pagination_outcome {S} py_int paginate args query (s : S) :
  (args !! "page_size" = None →
     PaginatedMixin_paginate py_int paginate args query s
     = (s, Ok (query, None))) ∧
  (∀ size text, args !! "page_size" = Some size →
     args !! "page" = Some text → py_int text = None →
     PaginatedMixin_paginate py_int paginate args query s
     = (s, Raise (HTTPException 404 "Invalid page number"))) ∧
  (∀ size page, args !! "page_size" = Some size →
     from_option py_int (Some 1) (args !! "page") = Some page →
     PaginatedMixin_paginate py_int paginate args query s
     = match py_int size with
       | Some per_page =>
           (s, Ok (items (paginate query page per_page),
                   Some (paginate query page per_page)))
       | None => (s, Raise (HTTPException 404 "Invalid per_page value"))
       end).
Proof.
  unfold PaginatedMixin_paginate. split; [|split].
  - by intros ->.
  - by intros size text -> -> ->.
  - intros size page -> Hp.
    destruct (args !! "page") as [text|]; simpl in Hp;
      [rewrite Hp | injection Hp as <-]; by destruct (py_int size).
Qed.

(** Extra X25 at a concrete input: [?page=abc] without [page_size]
    lists everything. *)
Lemma pagination_outcome_witness :
  PaginatedMixin_paginate (fun t => match int t with
                                    | Some (VInt z) => Some z
                                    | _ => None
                                    end)
    first_ten {[ "page" := "abc" ]} [host_a; printer] tt
  = (tt, Ok ([host_a; printer], None)).
Proof.
  destruct (pagination_outcome
              (fun t => match int t with Some (VInt z) => Some z | _ => None end)
              first_ten {[ "page" := "abc" ]} [host_a; printer] tt)
    as [Hnone _].
  apply Hnone. reflexivity.
Defined.








(** Extra X27. The grouped count answers 404 before any query when
    [group_by] is missing, empty, or names no column of the model. *)
Theorem count_rejects_unknown_group_by {S} attrs db args name (s : S) :
  args !! "group_by" = None ∨ args !! "group_by" = Some "" ∨
  (∃ col, args !! "group_by" = Some col ∧ col ∉ attrs) →
  ∃ msg, count attrs db args name s = (s, Raise (HTTPException 404 msg)).
Proof.
  unfold count. intros [-> | [-> | (col & -> & Hn)]].
  - by eexists.
  - by eexists.
  - rewrite (bool_decide_eq_false_2 (col ∈ attrs)) by done.
    rewrite orb_true_r. by eexists.
Qed.

(** Extra X27 at a concrete input: grouping hosts by [password]. *)
Lemma count_rejects_unknown_group_by_witness :
  ∃ msg, count ["id"; "ip"] two_sites {[ "group_by" := "password" ]} "lab" tt
         = (tt, Raise (HTTPException 404 msg)).
Proof.
  apply (count_rejects_unknown_group_by ["id"; "ip"] two_sites
           {[ "group_by" := "password" ]} "lab" tt).
  right. right. exists "password". split; [reflexivity|].
  intros Hin. apply (bool_decide_pack _) in Hin. vm_compute in Hin.
  exact Hin.
Defined.

End ApiLawsFacts.
